(** * native-lib.cpp: the single-prompt inference pipeline [runModel]

    A shallow embedding of [runModel] (app/src/main/cpp/native-lib.cpp) and
    the properties of its prompt formatter, generation loop, metrics and
    resource handling.

    Conventions of the embedding.
    - [std::string] is [string] (a list of bytes); the C escape [\n] is the
      byte 10, written [nl].
    - [int] and [long] values are [Z], without wrap-around (signed overflow
      is undefined in C++): the counters of the loop stay below
      [n_prompt + 32] (lemma [generated_tokens_le]) and the two products are
      1000 times an [int], which a 64-bit [long] holds.  Signed division is
      [Z.quot] (truncation toward zero) and a zero divisor is a [Fault].
    - The llama.cpp engine, the clock and logcat are external: the engine is
      a record of functions over an abstract engine state, and the function
      body threads a [World] holding that state, the ledger of live
      resources and the log.
    - [return s;] is the outcome [Return s]; the [while] loop takes the
      number of body executions it may perform as fuel and yields [OutOfFuel]
      when that is not enough. *)

From Stdlib Require Import ZArith List String Ascii Bool Lia.
From Stdlib Require Import DecimalString DecimalPos DecimalZ.
Import ListNotations.
Open Scope string_scope.
Open Scope Z_scope.

(** ** Strings *)

Definition nl_char : ascii := ascii_of_nat 10.
Definition nl : string := String nl_char EmptyString.

(** [s.find(c) != std::string::npos] *)
Fixpoint contains_char (c : ascii) (s : string) : bool :=
  match s with
  | EmptyString => false
  | String a s' => if Ascii.eqb a c then true else contains_char c s'
  end.

(** [std::to_string(long)] *)
Definition to_string (z : Z) : string := NilZero.string_of_int (Z.to_int z).

(** [s.append(buf, n)]: the first [n] bytes of [buf]. *)
Definition append_n (s buf : string) (n : Z) : string :=
  s ++ substring 0 (Z.to_nat n) buf.

(** ** Chat templates (lines 60-84) *)

Definition format_prompt (template_type : Z) (prompt : string) : string :=
  match template_type with
  | 1 => "<start_of_turn>user" ++ nl ++ prompt
         ++ "<end_of_turn>" ++ nl ++ "<start_of_turn>model" ++ nl
  | 2 => "<|begin_of_text|><|start_header_id|>user<|end_header_id|>" ++ nl ++ nl
         ++ prompt
         ++ "<|eot_id|><|start_header_id|>assistant<|end_header_id|>" ++ nl ++ nl
  | 3 => "<|user|>" ++ nl ++ prompt ++ "<|end|>" ++ nl ++ "<|assistant|>" ++ nl
  | _ => "<|im_start|>user" ++ nl ++ prompt
         ++ "<|im_end|>" ++ nl ++ "<|im_start|>assistant" ++ nl
  end.

Definition template_name (template_type : Z) : string :=
  match template_type with
  | 1 => "Gemma"
  | 2 => "Llama 3"
  | 3 => "Phi"
  | _ => "ChatML"
  end.

(** The four layouts of the chat templates, as the specification lists
    them. *)
Inductive TemplateKind : Type := ChatML | Gemma | Llama3 | Phi.

Definition kind_id (k : TemplateKind) : Z :=
  match k with ChatML => 0 | Gemma => 1 | Llama3 => 2 | Phi => 3 end.

Definition spec_prefix (k : TemplateKind) : string :=
  match k with
  | ChatML => "<|im_start|>user" ++ nl
  | Gemma => "<start_of_turn>user" ++ nl
  | Llama3 => "<|begin_of_text|><|start_header_id|>user<|end_header_id|>" ++ nl ++ nl
  | Phi => "<|user|>" ++ nl
  end.

Definition spec_suffix (k : TemplateKind) : string :=
  match k with
  | ChatML => "<|im_end|>" ++ nl ++ "<|im_start|>assistant" ++ nl
  | Gemma => "<end_of_turn>" ++ nl ++ "<start_of_turn>model" ++ nl
  | Llama3 => "<|eot_id|><|start_header_id|>assistant<|end_header_id|>" ++ nl ++ nl
  | Phi => "<|end|>" ++ nl ++ "<|assistant|>" ++ nl
  end.

(** ** The engine interface

    The llama.cpp calls [runModel] makes, over an abstract engine state [St]
    (model weights, KV cache, sampler, clock).  A pointer result is [true]
    when it is not null. *)

Definition llama_token := Z.

Record llama_batch : Type := mk_batch {
  n_tokens : Z;
  token : list llama_token;
  pos : option (list Z);
  n_seq_id : option (list Z);
  seq_id : option (list (list Z));
  logits : option (list bool)
}.

Record Engine (St : Type) : Type := {
  llama_backend_init : St -> St;
  llama_model_load_from_file : string -> St -> bool * St;
  (* n_ctx, n_threads *)
  llama_init_from_model : Z -> Z -> St -> bool * St;
  (* text, n_tokens_max, add_special, parse_special: count and tokens written *)
  llama_tokenize : string -> Z -> bool -> bool -> St -> (Z * list llama_token) * St;
  llama_decode : llama_batch -> St -> Z * St;
  llama_sampler_init_greedy : St -> St;
  (* idx *)
  llama_sampler_sample : Z -> St -> llama_token * St;
  llama_vocab_is_eog : St -> llama_token -> bool;
  (* token, buffer length, lstrip, special: count and buffer contents *)
  llama_token_to_piece : St -> llama_token -> Z -> Z -> bool -> Z * string;
  llama_sampler_free : St -> St;
  llama_free : St -> St;
  llama_free_model : St -> St;
  (* std::chrono::high_resolution_clock::now(), in nanoseconds *)
  clock_now : St -> Z * St
}.

Arguments llama_backend_init {St} _ _.
Arguments llama_model_load_from_file {St} _ _ _.
Arguments llama_init_from_model {St} _ _ _ _.
Arguments llama_tokenize {St} _ _ _ _ _ _.
Arguments llama_decode {St} _ _ _.
Arguments llama_sampler_init_greedy {St} _ _.
Arguments llama_sampler_sample {St} _ _ _.
Arguments llama_vocab_is_eog {St} _ _ _.
Arguments llama_token_to_piece {St} _ _ _ _ _ _.
Arguments llama_sampler_free {St} _ _.
Arguments llama_free {St} _ _.
Arguments llama_free_model {St} _ _.
Arguments clock_now {St} _ _.

(** [duration_cast<milliseconds>(t1 - t0).count()] *)
Definition duration_ms (t0 t1 : Z) : Z := Z.quot (t1 - t0) 1000000.

(** [llama_batch_get_one(&token, 1)] *)
Definition llama_batch_get_one (tokens : list llama_token) (n : Z) : llama_batch :=
  mk_batch n tokens None None None None.

(** [std::vector<llama_token>::resize(n)] *)
Definition vector_resize (n : nat) (v : list llama_token) : list llama_token :=
  (firstn n v ++ repeat 0 (n - List.length v))%list.

Fixpoint list_set {A : Type} (i : nat) (x : A) (l : list A) : list A :=
  match l, i with
  | [], _ => []
  | _ :: t, O => x :: t
  | h :: t, S j => h :: list_set j x t
  end.

(** The batch built at lines 141-153: one entry per prompt token, position
    [i], sequence id 0, logits on the last entry only. *)
Definition prefill_batch (n_prompt : Z) (prompt_tokens : list llama_token) : llama_batch :=
  let idx := seq 0 (Z.to_nat n_prompt) in
  mk_batch n_prompt
           (map (fun i => nth i prompt_tokens 0) idx)
           (Some (map Z.of_nat idx))
           (Some (map (fun _ => 1) idx))
           (Some (map (fun _ => [0]) idx))
           (Some (list_set (Z.to_nat (n_prompt - 1)) true (map (fun _ => false) idx))).

(** ** Outcomes, the world and the monad of the function body *)

Inductive outcome (A : Type) : Type :=
| Normal (a : A)       (* control reaches the next statement *)
| Return (s : string)  (* [return s;] *)
| Fault                (* division by zero *)
| OutOfFuel.             (* the loop was cut short by its fuel *)

Arguments Normal {A} a.
Arguments Return {A} s.
Arguments Fault {A}.
Arguments OutOfFuel {A}.

Inductive resource : Type := RModel | RContext | RBatch | RSampler.

Definition resource_eqb (a b : resource) : bool :=
  match a, b with
  | RModel, RModel | RContext, RContext | RBatch, RBatch | RSampler, RSampler => true
  | _, _ => false
  end.

Inductive log_level : Type := ANDROID_LOG_INFO | ANDROID_LOG_ERROR.

Record World (St : Type) : Type := mk_world {
  eng : St;
  live : list resource;
  logcat : list (log_level * string)
}.

Arguments mk_world {St} _ _ _.
Arguments eng {St} _.
Arguments live {St} _.
Arguments logcat {St} _.

Definition M (St A : Type) : Type := World St -> outcome A * World St.

Definition ret {St A} (a : A) : M St A := fun w => (Normal a, w).

Definition bind {St A B} (m : M St A) (k : A -> M St B) : M St B :=
  fun w =>
    match m w with
    | (Normal a, w') => k a w'
    | (Return s, w') => (Return s, w')
    | (Fault, w') => (Fault, w')
    | (OutOfFuel, w') => (OutOfFuel, w')
    end.

Definition return_ {St A} (s : string) : M St A := fun w => (Return s, w).
Definition fault {St A} : M St A := fun w => (Fault, w).
Definition out_of_fuel {St A} : M St A := fun w => (OutOfFuel, w).

Declare Scope monad_scope.
Delimit Scope monad_scope with monad.
Notation "x <- m ;; k" := (bind m (fun x => k))
  (at level 61, m at next level, right associativity) : monad_scope.
Notation "m ;; k" := (bind m (fun _ => k))
  (at level 61, right associativity) : monad_scope.
Open Scope monad_scope.

(** [if (c) { body }] *)
Definition when {St} (c : bool) (body : M St unit) : M St unit :=
  if c then body else ret tt.

Fixpoint remove_one (r : resource) (l : list resource) : list resource :=
  match l with
  | [] => []
  | x :: t => if resource_eqb x r then t else x :: remove_one r t
  end.

Definition call {St A} (f : St -> A * St) : M St A :=
  fun w => (Normal (fst (f (eng w))), mk_world (snd (f (eng w))) (live w) (logcat w)).

Definition call_ {St} (f : St -> St) : M St unit :=
  fun w => (Normal tt, mk_world (f (eng w)) (live w) (logcat w)).

Definition ask {St A} (f : St -> A) : M St A := fun w => (Normal (f (eng w)), w).

Definition acquire {St} (r : resource) : M St unit :=
  fun w => (Normal tt, mk_world (eng w) (r :: live w) (logcat w)).

Definition release {St} (r : resource) : M St unit :=
  fun w => (Normal tt, mk_world (eng w) (remove_one r (live w)) (logcat w)).

(** [__android_log_print(level, LOG_TAG, ...)] with the message formatted *)
Definition android_log_print {St} (level : log_level) (msg : string) : M St unit :=
  fun w => (Normal tt, mk_world (eng w) (live w) (logcat w ++ [(level, msg)])%list).

(** [a / b] on [long] *)
Definition ldiv {St} (a b : Z) : M St Z :=
  if b =? 0 then fault else ret (Z.quot a b).

(** ** The locals of [runModel] that are live across the generation loop *)

Record Locals : Type := mk_locals {
  t_start : Z;
  first_token_seen : bool;
  ttft_ms : Z;
  itps : Z;
  generated_tokens : Z;
  n_prompt : Z;
  batch : llama_batch;
  prefill_ms : Z;
  output : string;
  n_pos : Z;
  t_gen_start : Z
}.

Definition set_ttft (l : Locals) (v : Z) : Locals :=
  mk_locals (t_start l) true v (itps l) (generated_tokens l) (n_prompt l)
            (batch l) (prefill_ms l) (output l) (n_pos l) (t_gen_start l).

Definition set_generated_tokens (l : Locals) (v : Z) : Locals :=
  mk_locals (t_start l) (first_token_seen l) (ttft_ms l) (itps l) v (n_prompt l)
            (batch l) (prefill_ms l) (output l) (n_pos l) (t_gen_start l).

Definition set_batch (l : Locals) (v : llama_batch) : Locals :=
  mk_locals (t_start l) (first_token_seen l) (ttft_ms l) (itps l)
            (generated_tokens l) (n_prompt l) v (prefill_ms l) (output l)
            (n_pos l) (t_gen_start l).

Definition set_output (l : Locals) (v : string) : Locals :=
  mk_locals (t_start l) (first_token_seen l) (ttft_ms l) (itps l)
            (generated_tokens l) (n_prompt l) (batch l) (prefill_ms l) v
            (n_pos l) (t_gen_start l).

Definition set_n_pos (l : Locals) (v : Z) : Locals :=
  mk_locals (t_start l) (first_token_seen l) (ttft_ms l) (itps l)
            (generated_tokens l) (n_prompt l) (batch l) (prefill_ms l)
            (output l) v (t_gen_start l).

(** How the loop was left: one of its three [break]s, or its guard. *)
Inductive stop : Type := STOP_EOG | STOP_NEWLINE | STOP_DECODE | STOP_BUDGET.

Inductive control : Type := Continue | Break (why : stop).

Definition max_tokens : Z := 32.
Definition n_predict : Z := max_tokens.
Definition n_ctx : Z := 2048.
Definition n_threads : Z := 4.

(** Lines 260-265 *)
Definition result_string (ttft_ms itps otps oet_ms : Z) (output : string) : string :=
  "TTFT_MS=" ++ to_string ttft_ms ++
  ";ITPS=" ++ to_string itps ++
  ";OTPS=" ++ to_string otps ++
  ";OET_MS=" ++ to_string oet_ms ++
  "|" ++ output.

Section Pipeline.

Context {St : Type} (E : Engine St).

Definition now : M St Z := call (clock_now E).

Definition model_load (model_path : string) : M St bool :=
  model <- call (llama_model_load_from_file E model_path) ;;
  when model (acquire RModel) ;;
  ret model.

Definition context_init (n_ctx n_threads : Z) : M St bool :=
  ctx <- call (llama_init_from_model E n_ctx n_threads) ;;
  when ctx (acquire RContext) ;;
  ret ctx.

(** Lines 46-184: everything before the [while]. *)
Definition run_prefill (prompt model_path : string) (template_type : Z) : M St Locals :=
  t_start <- now ;;
  android_log_print ANDROID_LOG_INFO "runModel() started" ;;
  let formatted_prompt := format_prompt template_type prompt in
  android_log_print ANDROID_LOG_INFO
    ("Using " ++ template_name template_type ++ " chat template") ;;
  call_ (llama_backend_init E) ;;
  android_log_print ANDROID_LOG_INFO ("Loading model from: " ++ model_path) ;;
  model <- model_load model_path ;;
  when (negb model)
    (android_log_print ANDROID_LOG_ERROR "Failed to load model" ;;
     return_ EmptyString) ;;
  ctx <- context_init n_ctx n_threads ;;
  when (negb ctx)
    (android_log_print ANDROID_LOG_ERROR "Failed to create context" ;;
     return_ EmptyString) ;;
  let capacity := Z.of_nat (String.length formatted_prompt) + 64 in
  tokenized <- call (llama_tokenize E formatted_prompt capacity true false) ;;
  let n_prompt := fst tokenized in
  android_log_print ANDROID_LOG_INFO ("Formatted prompt: " ++ formatted_prompt) ;;
  when (n_prompt <=? 0)
    (android_log_print ANDROID_LOG_ERROR "Tokenization failed" ;;
     return_ EmptyString) ;;
  let prompt_tokens :=
    vector_resize (Z.to_nat n_prompt)
                  (vector_resize (Z.to_nat capacity) (snd tokenized)) in
  acquire RBatch ;;
  let batch := prefill_batch n_prompt prompt_tokens in
  t_prefill_start <- now ;;
  rc <- call (llama_decode E batch) ;;
  when (negb (rc =? 0))
    (android_log_print ANDROID_LOG_ERROR "Prompt decode failed" ;;
     return_ EmptyString) ;;
  t_prefill_end <- now ;;
  let prefill_ms := duration_ms t_prefill_start t_prefill_end in
  itps <- (if prefill_ms >? 0 then ldiv (n_prompt * 1000) prefill_ms else ret (-1)) ;;
  call_ (llama_sampler_init_greedy E) ;;
  acquire RSampler ;;
  t_gen_start <- now ;;
  ret (mk_locals t_start false (-1) itps 0 n_prompt batch prefill_ms
                 EmptyString 0 t_gen_start).

(** Line 186 *)
Definition loop_guard (l : Locals) : bool :=
  n_pos l + n_tokens (batch l) <? n_prompt l + n_predict.

(** Lines 188-228: one execution of the loop body. *)
Definition loop_body (l : Locals) : M St (control * Locals) :=
  token <- call (llama_sampler_sample E (-1)) ;;
  eog <- ask (fun s => llama_vocab_is_eog E s token) ;;
  if eog : bool then ret (Break STOP_EOG, l) else
  l <- (if negb (first_token_seen l)
        then t_first <- now ;; ret (set_ttft l (duration_ms (t_start l) t_first))
        else ret l) ;;
  piece <- ask (fun s => llama_token_to_piece E s token 128 0 true) ;;
  let n := fst piece in
  let buf := snd piece in
  let l := if n >? 0 then set_output l (append_n (output l) buf n) else l in
  if (n >? 0) && contains_char nl_char (output l)
  then ret (Break STOP_NEWLINE, l) else
  let l := set_generated_tokens l (generated_tokens l + 1) in
  let l := set_batch l (llama_batch_get_one [token] 1) in
  rc <- call (llama_decode E (batch l)) ;;
  if negb (rc =? 0) then ret (Break STOP_DECODE, l) else
  ret (Continue, set_n_pos l (n_pos l + n_tokens (batch l))).

(** Lines 186-229; [fuel] is the number of body executions allowed. *)
Fixpoint while_loop (fuel : nat) (l : Locals) : M St (stop * Locals) :=
  if loop_guard l then
    match fuel with
    | O => out_of_fuel
    | S fuel' =>
        r <- loop_body l ;;
        match r with
        | (Break why, l') => ret (why, l')
        | (Continue, l') => while_loop fuel' l'
        end
    end
  else ret (STOP_BUDGET, l).

(** Lines 231-267: metrics of the decode phase, cleanup, result. *)
Definition run_finish (l : Locals) : M St unit :=
  t_gen_end <- now ;;
  let gen_ms := duration_ms (t_gen_start l) t_gen_end in
  otps <- (if gen_ms >? 0 then ldiv (generated_tokens l * 1000) gen_ms else ret (-1)) ;;
  let oet_ms := gen_ms in
  android_log_print ANDROID_LOG_INFO ("Raw model output: " ++ output l) ;;
  call_ (llama_sampler_free E) ;; release RSampler ;;
  call_ (llama_free E) ;; release RContext ;;
  call_ (llama_free_model E) ;; release RModel ;;
  return_ (result_string (ttft_ms l) (itps l) otps oet_ms (output l)).

Definition runModel (fuel : nat) (prompt model_path : string) (template_type : Z)
  : M St unit :=
  l <- run_prefill prompt model_path template_type ;;
  r <- while_loop fuel l ;;
  run_finish (snd r).

End Pipeline.

(** ** The JNI boundary (lines 273-307)

    [Java_com_mad_assignment_MainActivity_inferAllergens].  The JNI
    environment is external: [GetStringUTFChars] gives the bytes of the
    buffer it returns ([None] for a null pointer) and [NewStringUTF] builds
    a Java string from a C string.  A [const char*] read as a C string ends
    before its first NUL byte ([c_str]); [ReleaseStringUTFChars] is called
    after the bytes have been copied and has no effect here.  The value the
    function returns is the [Normal] value of the computation. *)

Definition nul_char : ascii := zero.

(** The C string held by a buffer: the bytes before the first NUL. *)
Fixpoint c_str (s : string) : string :=
  match s with
  | EmptyString => EmptyString
  | String a s' => if Ascii.eqb a nul_char then EmptyString else String a (c_str s')
  end.

Record JNIEnv (jstring : Type) : Type := {
  GetStringUTFChars : jstring -> option string;
  NewStringUTF : string -> jstring
}.

Arguments GetStringUTFChars {jstring} _ _.
Arguments NewStringUTF {jstring} _ _.

(** [std::string s(cstr)]; a null [cstr] is undefined behaviour. *)
Definition string_of_chars {St} (cstr : option string) : M St string :=
  match cstr with
  | Some buf => ret (c_str buf)
  | None => fault
  end.

(** A call of a function whose body is [body]: its [return] gives the value
    of the call. *)
Definition invoke {St} (body : M St unit) : M St string :=
  fun w =>
    match body w with
    | (Return s, w') => (Normal s, w')
    | (Normal _, w') => (Fault, w')
    | (Fault, w') => (Fault, w')
    | (OutOfFuel, w') => (OutOfFuel, w')
    end.

Section Boundary.

Context {St jstring : Type} (E : Engine St) (env : JNIEnv jstring).

Definition inferAllergens (fuel : nat) (inputPrompt modelPath : jstring)
           (templateType : Z) : M St jstring :=
  android_log_print ANDROID_LOG_INFO "inferAllergens() called" ;;
  let pathCstr := GetStringUTFChars env modelPath in
  model_path <- string_of_chars pathCstr ;;
  android_log_print ANDROID_LOG_INFO ("Model path: " ++ c_str model_path) ;;
  android_log_print ANDROID_LOG_INFO ("Template type: " ++ to_string templateType) ;;
  let cstr := GetStringUTFChars env inputPrompt in
  prompt <- string_of_chars cstr ;;
  output <- invoke (runModel E fuel prompt model_path templateType) ;;
  android_log_print ANDROID_LOG_INFO ("Inference output: " ++ c_str output) ;;
  ret (NewStringUTF env (c_str output)).

End Boundary.

(** ** A scripted engine

    An engine whose answers are read off a script: used to run the pipeline
    on concrete inputs.  Sampled tokens and decode results are consumed from
    the front of their lists (end of generation, respectively success, once
    a list is used up); the clock advances by [tick] at each reading. *)

Module Scripted.

Record Script : Type := mk_script {
  model_ok : bool;
  ctx_ok : bool;
  tokenized : Z * list llama_token;
  decode_rcs : list Z;
  samples : list llama_token;
  vocab : list (llama_token * (Z * string));
  eog_token : llama_token;
  time : Z;
  tick : Z
}.

Definition with_decode_rcs (s : Script) (v : list Z) : Script :=
  mk_script (model_ok s) (ctx_ok s) (tokenized s) v (samples s) (vocab s)
            (eog_token s) (time s) (tick s).

Definition with_samples (s : Script) (v : list llama_token) : Script :=
  mk_script (model_ok s) (ctx_ok s) (tokenized s) (decode_rcs s) v (vocab s)
            (eog_token s) (time s) (tick s).

Definition with_time (s : Script) (v : Z) : Script :=
  mk_script (model_ok s) (ctx_ok s) (tokenized s) (decode_rcs s) (samples s)
            (vocab s) (eog_token s) v (tick s).

Fixpoint lookup_piece (t : llama_token) (v : list (llama_token * (Z * string)))
  : Z * string :=
  match v with
  | [] => (0, EmptyString)
  | (t', p) :: v' => if t' =? t then p else lookup_piece t v'
  end.

Definition engine : Engine Script := {|
  llama_backend_init := fun s => s;
  llama_model_load_from_file := fun _ s => (model_ok s, s);
  llama_init_from_model := fun _ _ s => (ctx_ok s, s);
  llama_tokenize := fun _ _ _ _ s => (tokenized s, s);
  llama_decode := fun _ s =>
    match decode_rcs s with
    | [] => (0, s)
    | rc :: rest => (rc, with_decode_rcs s rest)
    end;
  llama_sampler_init_greedy := fun s => s;
  llama_sampler_sample := fun _ s =>
    match samples s with
    | [] => (eog_token s, s)
    | t :: rest => (t, with_samples s rest)
    end;
  llama_vocab_is_eog := fun s t => t =? eog_token s;
  llama_token_to_piece := fun s t _ _ _ => lookup_piece t (vocab s);
  llama_sampler_free := fun s => s;
  llama_free := fun s => s;
  llama_free_model := fun s => s;
  clock_now := fun s => (time s, with_time s (time s + tick s))
|}.

Definition world (s : Script) : World Script := mk_world s [] [].

(** A vocabulary of text fragments: token [i] (from 1) decodes to the
    [i]-th fragment; token 0 is end of generation. *)
Fixpoint vocab_of (i : llama_token) (pieces : list string)
  : list (llama_token * (Z * string)) :=
  match pieces with
  | [] => []
  | p :: ps => (i, (Z.of_nat (String.length p), p)) :: vocab_of (i + 1) ps
  end.

(** *** Scripts *)

(** The model answers [peanut, milk, wheat], a newline, and would go on. *)
Definition scenario_A : Script :=
  mk_script true true (3, [11; 12; 13]) [] [1; 2; 3; 4]
            (vocab_of 1 ["peanut"; ", milk"; ", wheat" ++ nl; " and more"])
            0 0 1500000.

(** A prompt of 12 tokens and a model that keeps answering [a]. *)
Definition long_answer : Script :=
  mk_script true true (12, [11; 12; 13; 14; 15; 16; 17; 18; 19; 20; 21; 22]) []
            (repeat 1 60) (vocab_of 1 ["a"]) 0 0 1500000.

Definition no_model : Script :=
  mk_script false true (3, [11; 12; 13]) [] [1] (vocab_of 1 ["a"]) 0 0 1500000.

Definition no_context : Script :=
  mk_script true false (3, [11; 12; 13]) [] [1] (vocab_of 1 ["a"]) 0 0 1500000.

Definition no_tokens : Script :=
  mk_script true true (-1, []) [] [1] (vocab_of 1 ["a"]) 0 0 1500000.

Definition prefill_fails : Script :=
  mk_script true true (3, [11; 12; 13]) [1] [1] (vocab_of 1 ["a"]) 0 0 1500000.

(** The first sampled token is end of generation. *)
Definition empty_answer : Script :=
  mk_script true true (3, [11; 12; 13]) [] [] (vocab_of 1 ["a"]) 0 0 1500000.

(** The first sampled token has no text; the second is end of generation. *)
Definition silent_token : Script :=
  mk_script true true (3, [11; 12; 13]) [] [1] [(1, (0, EmptyString))]
            0 0 1500000.

(** The forward pass of the third sampled token fails. *)
Definition decode_fails : Script :=
  mk_script true true (3, [11; 12; 13]) [0; 0; 0; 1] [1; 2; 3; 4]
            (vocab_of 1 ["egg"; ", "; "soy"; ", fish"]) 0 0 1500000.

(** As [scenario_A], but the fragment that holds the newline goes on after
    it. *)
Definition scenario_beyond : Script :=
  mk_script true true (3, [11; 12; 13]) [] [1; 2; 3; 4]
            (vocab_of 1 ["peanut"; ", milk"; ", wheat" ++ nl ++ "Note"; " and more"])
            0 0 1500000.

(** As [scenario_A], with a clock that does not advance. *)
Definition instant_clock : Script :=
  mk_script true true (3, [11; 12; 13]) [] [1; 2; 3; 4]
            (vocab_of 1 ["peanut"; ", milk"; ", wheat" ++ nl; " and more"])
            0 0 0.

End Scripted.

(** A JNI environment whose Java strings are their own bytes. *)
Module ScriptedJNI.

Definition env : JNIEnv string := {|
  GetStringUTFChars := fun s => Some s;
  NewStringUTF := fun s => s
|}.

End ScriptedJNI.

(** ** Auxiliary notions for the statements *)

(** The part of the result string before the separator (lines 261-264). *)
Definition metrics_header (ttft_ms itps otps oet_ms : Z) : string :=
  "TTFT_MS=" ++ to_string ttft_ms ++
  ";ITPS=" ++ to_string itps ++
  ";OTPS=" ++ to_string otps ++
  ";OET_MS=" ++ to_string oet_ms.

(** The bytes [std::to_string] can produce. *)
Definition metric_char (c : ascii) : bool :=
  existsb (Ascii.eqb c)
          ["-"; "0"; "1"; "2"; "3"; "4"; "5"; "6"; "7"; "8"; "9"]%char.

(** The engine state in which [runModel] calls the tokenizer, and what the
    tokenizer answers there (lines 87-127). *)
Definition tokenizer_state {St : Type} (E : Engine St) (model_path : string)
           (w : World St) : St :=
  snd (llama_init_from_model E n_ctx n_threads
         (snd (llama_model_load_from_file E model_path
                 (llama_backend_init E (snd (clock_now E (eng w))))))).

Definition tokenizer_answer {St : Type} (E : Engine St)
           (prompt model_path : string) (template_type : Z) (w : World St)
  : Z * list llama_token :=
  fst (llama_tokenize E (format_prompt template_type prompt)
         (Z.of_nat (String.length (format_prompt template_type prompt)) + 64)
         true false (tokenizer_state E model_path w)).

Definition is_info (e : log_level * string) : bool :=
  match fst e with ANDROID_LOG_INFO => true | ANDROID_LOG_ERROR => false end.

Definition no_entry : log_level * string := (ANDROID_LOG_INFO, EmptyString).

(** ** The engine's answers along a run

    What the engine and the clock answer at each call of [runModel], in the
    order of the calls, from the world [w] in which the function is entered
    (prefill stage) and from the engine state [s] in which a body execution
    of the loop starts. *)

Section Answers.

Context {St : Type} (E : Engine St).

(** Line 47: [t_start]. *)
Definition start_clock (w : World St) : Z := fst (clock_now E (eng w)).

(** Line 94: [llama_model_load_from_file]. *)
Definition load_answer (model_path : string) (w : World St) : bool * St :=
  llama_model_load_from_file E model_path
    (llama_backend_init E (snd (clock_now E (eng w)))).

(** Line 108: [llama_init_from_model]. *)
Definition context_answer (model_path : string) (w : World St) : bool * St :=
  llama_init_from_model E n_ctx n_threads (snd (load_answer model_path w)).

(** The engine state after [llama_tokenize] (line 119). *)
Definition after_tokenize (prompt model_path : string) (template_type : Z)
           (w : World St) : St :=
  snd (llama_tokenize E (format_prompt template_type prompt)
         (Z.of_nat (String.length (format_prompt template_type prompt)) + 64)
         true false (tokenizer_state E model_path w)).

(** Lines 138-153: the batch of the prompt. *)
Definition prompt_batch (prompt model_path : string) (template_type : Z)
           (w : World St) : llama_batch :=
  let answer := tokenizer_answer E prompt model_path template_type w in
  prefill_batch (fst answer)
    (vector_resize (Z.to_nat (fst answer))
       (vector_resize
          (Z.to_nat (Z.of_nat (String.length (format_prompt template_type prompt))
                     + 64))
          (snd answer))).

(** Line 156: [t_prefill_start]; line 158: the prefill [llama_decode];
    line 164: [t_prefill_end]; lines 165-168: [prefill_ms]. *)
Definition prefill_start_clock (prompt model_path : string) (template_type : Z)
           (w : World St) : Z * St :=
  clock_now E (after_tokenize prompt model_path template_type w).

Definition prefill_answer (prompt model_path : string) (template_type : Z)
           (w : World St) : Z * St :=
  llama_decode E (prompt_batch prompt model_path template_type w)
    (snd (prefill_start_clock prompt model_path template_type w)).

Definition prefill_end_clock (prompt model_path : string) (template_type : Z)
           (w : World St) : Z * St :=
  clock_now E (snd (prefill_answer prompt model_path template_type w)).

Definition measured_prefill_ms (prompt model_path : string) (template_type : Z)
           (w : World St) : Z :=
  duration_ms (fst (prefill_start_clock prompt model_path template_type w))
              (fst (prefill_end_clock prompt model_path template_type w)).

(** Line 175: the sampler; line 184: [t_gen_start] and the engine state in
    which the loop is entered. *)
Definition gen_start_clock (prompt model_path : string) (template_type : Z)
           (w : World St) : Z * St :=
  clock_now E (llama_sampler_init_greedy E
                 (snd (prefill_end_clock prompt model_path template_type w))).

Definition entry_state (prompt model_path : string) (template_type : Z)
           (w : World St) : St :=
  snd (gen_start_clock prompt model_path template_type w).

(** Line 189: the sampled token and the engine state after sampling. *)
Definition sampled_token (s : St) : llama_token :=
  fst (llama_sampler_sample E (-1) s).

Definition after_sample (s : St) : St := snd (llama_sampler_sample E (-1) s).

(** Line 191 *)
Definition sampled_eog (s : St) : bool :=
  llama_vocab_is_eog E (after_sample s) (sampled_token s).

(** Lines 196-202: the clock is read only for the first token. *)
Definition first_token_clock (s : St) : Z := fst (clock_now E (after_sample s)).

Definition piece_state (l : Locals) (s : St) : St :=
  if first_token_seen l then after_sample s
  else snd (clock_now E (after_sample s)).

(** Lines 205-207: [n] and [buf]; line 210: the bytes appended. *)
Definition sampled_piece (l : Locals) (s : St) : Z * string :=
  llama_token_to_piece E (piece_state l s) (sampled_token s) 128 0 true.

Definition sampled_fragment (l : Locals) (s : St) : string :=
  if fst (sampled_piece l s) >? 0
  then substring 0 (Z.to_nat (fst (sampled_piece l s))) (snd (sampled_piece l s))
  else EmptyString.

(** Lines 221-224: the forward pass of the sampled token. *)
Definition step_answer (l : Locals) (s : St) : Z * St :=
  llama_decode E (llama_batch_get_one [sampled_token s] 1) (piece_state l s).

(** Lines 231, 252-255: the clock reading and the three frees that follow
    the loop. *)
Definition gen_end_clock (s : St) : Z := fst (clock_now E s).

Definition after_cleanup (s : St) : St :=
  llama_free_model E (llama_free E (llama_sampler_free E (snd (clock_now E s)))).

(** The locals and the world at the guard after [k] body executions that
    ran to their end, if the loop gets that far. *)
Fixpoint loop_state (k : nat) (l : Locals) (w : World St)
  : option (Locals * World St) :=
  match k with
  | O => Some (l, w)
  | S k' =>
      if loop_guard l then
        match loop_body E l w with
        | (Normal (Continue, l'), w') => loop_state k' l' w'
        | _ => None
        end
      else None
  end.

(** The four checks of the prefill stage pass (lines 95, 109, 132, 158). *)
Definition prefill_passes (prompt model_path : string) (template_type : Z)
           (w : World St) : Prop :=
  fst (load_answer model_path w) = true /\
  fst (context_answer model_path w) = true /\
  0 < fst (tokenizer_answer E prompt model_path template_type w) /\
  fst (prefill_answer prompt model_path template_type w) = 0.

(** The four figures of the result in terms of the answers: the time to
    the first token (lines 197-200), the input throughput (lines 170-172),
    and, for a loop left in engine state [s] after counting [count] tokens,
    the decode time and the output throughput (lines 231-241). *)
Definition first_token_ms (prompt model_path : string) (template_type : Z)
           (w : World St) : Z :=
  duration_ms (start_clock w)
    (first_token_clock (entry_state prompt model_path template_type w)).

Definition answered_itps (prompt model_path : string) (template_type : Z)
           (w : World St) : Z :=
  if measured_prefill_ms prompt model_path template_type w >? 0
  then Z.quot (fst (tokenizer_answer E prompt model_path template_type w) * 1000)
              (measured_prefill_ms prompt model_path template_type w)
  else -1.

Definition decode_ms (prompt model_path : string) (template_type : Z)
           (w : World St) (s : St) : Z :=
  duration_ms (fst (gen_start_clock prompt model_path template_type w))
              (gen_end_clock s).

Definition answered_otps (count gen_ms : Z) : Z :=
  if gen_ms >? 0 then Z.quot (count * 1000) gen_ms else -1.

End Answers.

(** ** Reasoning about runs *)

Ltac unfold_run :=
  unfold bind, call, call_, ask, now, when, acquire, release,
    android_log_print, ret, return_, fault, out_of_fuel, ldiv in *.

Ltac case_run H :=
  repeat match type of H with
    | context [if ?b then _ else _] => destruct b eqn:?; cbn in H
    end.

(** What holds of the locals when control reaches the [while]. *)
Definition loop_entry (l : Locals) : Prop :=
  n_pos l = 0 /\ n_tokens (batch l) = n_prompt l /\ 0 < n_prompt l /\
  output l = EmptyString /\ generated_tokens l = 0 /\
  first_token_seen l = false /\ ttft_ms l = -1 /\
  itps l = (if prefill_ms l >? 0
            then Z.quot (n_prompt l * 1000) (prefill_ms l) else -1).

(** Locals the loop never assigns. *)
Definition frame (l l' : Locals) : Prop :=
  t_start l' = t_start l /\ n_prompt l' = n_prompt l /\ itps l' = itps l /\
  prefill_ms l' = prefill_ms l /\ t_gen_start l' = t_gen_start l.

(** The effect of one body execution on the locals, by the way it ends. *)
Definition body_post (l : Locals) (c : control) (l' : Locals) : Prop :=
  frame l l' /\
  (first_token_seen l = true ->
   first_token_seen l' = true /\ ttft_ms l' = ttft_ms l) /\
  (exists fragment, output l' = output l ++ fragment) /\
  match c with
  | Continue =>
      n_pos l' = n_pos l + 1 /\ n_tokens (batch l') = 1 /\
      generated_tokens l' = generated_tokens l + 1 /\
      first_token_seen l' = true /\
      (contains_char nl_char (output l') = true ->
       contains_char nl_char (output l) = true)
  | Break STOP_EOG => l' = l
  | Break STOP_NEWLINE =>
      n_pos l' = n_pos l /\ batch l' = batch l /\
      generated_tokens l' = generated_tokens l /\
      first_token_seen l' = true /\
      contains_char nl_char (output l') = true
  | Break STOP_DECODE =>
      n_pos l' = n_pos l /\ n_tokens (batch l') = 1 /\
      generated_tokens l' = generated_tokens l + 1 /\
      first_token_seen l' = true /\
      (contains_char nl_char (output l') = true ->
       contains_char nl_char (output l) = true)
  | Break STOP_BUDGET => False
  end.

(** The decode-phase duration a run measures when it leaves the loop in
    world [w] with locals [l], and the throughput it derives (lines
    231-239). *)
Definition gen_ms_at {St : Type} (E : Engine St) (l : Locals) (w : World St) : Z :=
  duration_ms (t_gen_start l) (fst (clock_now E (eng w))).

Definition otps_at {St : Type} (E : Engine St) (l : Locals) (w : World St) : Z :=
  if gen_ms_at E l w >? 0
  then Z.quot (generated_tokens l * 1000) (gen_ms_at E l w) else -1.

(** During a run the accumulated output holds no newline whenever the guard
    is tested. *)
Definition no_newline (l : Locals) : Prop :=
  contains_char nl_char (output l) = false.

Definition fatal_messages : list string :=
  [ "Failed to load model"; "Failed to create context";
    "Tokenization failed"; "Prompt decode failed" ].

Section Runs.

Context {St : Type} (E : Engine St).

Lemma run_prefill_cases prompt model_path template_type w o w1 :
  run_prefill E prompt model_path template_type w = (o, w1) ->
  (o = Return EmptyString /\
   exists pre msg, logcat w1 = (pre ++ [(ANDROID_LOG_ERROR, msg)])%list /\
                   In msg fatal_messages) \/
  (exists l, o = Normal l /\ loop_entry l /\
             live w1 = RSampler :: RBatch :: RContext :: RModel :: live w).
Proof.
  unfold run_prefill, model_load, context_init. unfold_run. cbn.
  intros H. case_run H; inversion H; subst; clear H;
    try (left; split; [reflexivity|]; cbn [logcat];
         eexists; eexists; split; [reflexivity | cbn; tauto]).
  all: try lia.
  all: right; eexists; split; [reflexivity|]; split; [|reflexivity].
  all: unfold loop_entry; cbn [n_pos n_tokens batch n_prompt output
         generated_tokens first_token_seen ttft_ms itps prefill_ms prefill_batch].
  all: repeat match goal with H : _ = true |- _ => rewrite H
                         | H : _ = false |- _ => rewrite H end.
  all: repeat split; try reflexivity; try lia.
Qed.

Lemma string_app_empty (s : string) : s ++ EmptyString = s.
Proof. induction s; cbn; congruence. Qed.

Lemma contains_char_app c (a b : string) :
  contains_char c (a ++ b) = contains_char c a || contains_char c b.
Proof.
  induction a as [|x a IH]; cbn; [reflexivity|].
  destruct (Ascii.eqb x c); [reflexivity | exact IH].
Qed.

Lemma loop_body_cases l w o w' :
  loop_body E l w = (o, w') ->
  exists c l', o = Normal (c, l') /\ body_post l c l' /\
               live w' = live w /\ logcat w' = logcat w.
Proof.
  unfold loop_body. unfold_run. cbn.
  intros H. case_run H; inversion H; subst; clear H.
  all: repeat match goal with
         | H : ?b = _, H' : context [?b] |- _ => rewrite H in H'; cbn in H'
         end; try discriminate.
  all: eexists; eexists; split; [reflexivity|]; split; [|split; reflexivity].
  all: repeat match goal with
         | H : negb _ = true |- _ => apply negb_true_iff in H
         | H : negb _ = false |- _ => apply negb_false_iff in H
         end.
  all: unfold body_post, frame; cbn.
  all: repeat split; try reflexivity; try assumption; try congruence.
  all: try (intros _; split; [assumption | reflexivity]).
  all: try (eexists; reflexivity).
  all: try (exists EmptyString; symmetry; apply string_app_empty).
  all: try (intros Hnl; unfold append_n in *; cbn in *; congruence).
Qed.

(** When and to what the body assigns [ttft_ms]. *)
Lemma loop_body_ttft l w c l' w' :
  loop_body E l w = (Normal (c, l'), w') ->
  first_token_seen l = false ->
  (c = Break STOP_EOG /\ l' = l) \/
  (c <> Break STOP_EOG /\ first_token_seen l' = true /\
   llama_vocab_is_eog E (snd (llama_sampler_sample E (-1) (eng w)))
                      (fst (llama_sampler_sample E (-1) (eng w))) = false /\
   ttft_ms l' =
     duration_ms (t_start l)
       (fst (clock_now E (snd (llama_sampler_sample E (-1) (eng w)))))).
Proof.
  unfold loop_body. unfold_run. cbn.
  intros H Hseen. rewrite Hseen in H. cbn in H.
  case_run H; inversion H; subst; clear H.
  all: try (left; split; reflexivity).
  all: right; repeat split; try reflexivity; try assumption; discriminate.
Qed.

(** How a finished loop was left: by its guard, or by a [break] of the last
    body execution; [P] is any property of the locals that holds at the
    first test of the guard and that a full body execution preserves. *)
Lemma while_loop_inv (P : Locals -> Prop) :
  (forall l w l' w',
      P l -> loop_guard l = true ->
      loop_body E l w = (Normal (Continue, l'), w') ->
      body_post l Continue l' -> P l') ->
  forall fuel l w why l' w',
    P l ->
    while_loop E fuel l w = (Normal (why, l'), w') ->
    live w' = live w /\
    ((why = STOP_BUDGET /\ loop_guard l' = false /\ P l') \/
     (exists l0 w0,
         P l0 /\ loop_guard l0 = true /\
         loop_body E l0 w0 = (Normal (Break why, l'), w') /\
         body_post l0 (Break why) l')).
Proof.
  intros Hstep fuel.
  induction fuel as [|fuel IH]; intros l w why l' w' HP Hrun;
    cbn in Hrun; destruct (loop_guard l) eqn:Hg.
  - discriminate.
  - inversion Hrun; subst. split; [reflexivity|]. left. auto.
  - unfold bind in Hrun.
    destruct (loop_body E l w) as [o w1] eqn:Hb.
    destruct (loop_body_cases _ _ _ _ Hb) as (c & l1 & -> & Hpost & Hlive & _).
    destruct c as [|why0].
    + destruct (IH l1 w1 why l' w' (Hstep _ _ _ _ HP Hg Hb Hpost) Hrun)
        as [Hl Hcases].
      split; [congruence | exact Hcases].
    + cbn in Hrun. inversion Hrun; subst.
      split; [assumption|]. right. exists l, w. auto.
  - inversion Hrun; subst. split; [reflexivity|]. left. auto.
Qed.

(** The loop needs at most [n_prompt + n_predict - n_pos - 1] body
    executions once its batch holds at least one token. *)
Lemma while_loop_terminates fuel : forall l w,
  1 <= n_tokens (batch l) ->
  (Z.to_nat (n_prompt l + n_predict - n_pos l - 1) <= fuel)%nat ->
  exists why l' w', while_loop E fuel l w = (Normal (why, l'), w').
Proof.
  induction fuel as [|fuel IH]; intros l w Hb Hfuel;
    cbn; destruct (loop_guard l) eqn:Hg;
    try (eexists; eexists; eexists; reflexivity).
  - unfold loop_guard in Hg. apply Z.ltb_lt in Hg. lia.
  - unfold bind.
    destruct (loop_body E l w) as [o w1] eqn:Hbody.
    destruct (loop_body_cases _ _ _ _ Hbody) as (c & l1 & -> & Hpost & _).
    destruct c as [|why0].
    + destruct Hpost as ((_ & Hn & _) & _ & _ & Hpos & Htok & _).
      apply IH; [lia|].
      unfold loop_guard in Hg. apply Z.ltb_lt in Hg. lia.
    + eexists; eexists; eexists; reflexivity.
Qed.

(** The final stage always returns the result string. *)
Lemma run_finish_returns l w :
  exists otps w',
    run_finish E l w =
      (Return (result_string (ttft_ms l) (itps l) otps (gen_ms_at E l w)
                             (output l)), w') /\
    otps = otps_at E l w /\
    live w' = remove_one RModel (remove_one RContext (remove_one RSampler (live w))).
Proof.
  unfold otps_at, gen_ms_at, run_finish. unfold_run. cbn.
  destruct (duration_ms (t_gen_start l) (fst (clock_now E (eng w))) >? 0) eqn:Hpos.
  - destruct (duration_ms (t_gen_start l) (fst (clock_now E (eng w))) =? 0) eqn:Hz;
      [lia|].
    eexists; eexists; split; [reflexivity|]. split; reflexivity.
  - exists (-1). eexists; split; [reflexivity|]. split; reflexivity.
Qed.

Lemma while_loop_outcome fuel : forall l w o w',
  while_loop E fuel l w = (o, w') ->
  o = OutOfFuel \/ exists why l', o = Normal (why, l').
Proof.
  induction fuel as [|fuel IH]; intros l w o w' Hrun;
    cbn in Hrun; destruct (loop_guard l).
  - inversion Hrun. now left.
  - inversion Hrun. right. eauto.
  - unfold bind in Hrun.
    destruct (loop_body E l w) as [o1 w1] eqn:Hb.
    destruct (loop_body_cases _ _ _ _ Hb) as (c & l1 & -> & _).
    destruct c as [|why0].
    + eapply IH; eassumption.
    + inversion Hrun. right. eauto.
  - inversion Hrun. right. eauto.
Qed.

(** The three ways a call of [runModel] can go: an early [return] of the
    empty string out of the prefill stage, a loop cut short by its fuel, or
    a run through the loop to the assembled result. *)
Lemma runModel_cases fuel prompt model_path template_type w o w' :
  runModel E fuel prompt model_path template_type w = (o, w') ->
  (o = Return EmptyString /\
   run_prefill E prompt model_path template_type w = (Return EmptyString, w')) \/
  (o = OutOfFuel /\
   exists l w1, run_prefill E prompt model_path template_type w = (Normal l, w1) /\
                while_loop E fuel l w1 = (OutOfFuel, w')) \/
  (exists l w1 why l' w2,
      run_prefill E prompt model_path template_type w = (Normal l, w1) /\
      while_loop E fuel l w1 = (Normal (why, l'), w2) /\
      run_finish E l' w2 = (o, w')).
Proof.
  unfold runModel, bind. intros Hrun.
  destruct (run_prefill E prompt model_path template_type w) as [o1 w1] eqn:Hp.
  destruct (run_prefill_cases _ _ _ _ _ _ Hp) as [[-> _] | (l & -> & _)].
  - inversion Hrun; subst. left. auto.
  - destruct (while_loop E fuel l w1) as [o2 w2] eqn:Hw.
    destruct (while_loop_outcome _ _ _ _ _ Hw) as [-> | (why & l' & ->)].
    + inversion Hrun; subst. right; left. split; [reflexivity|]. eauto.
    + right; right. exists l, w1, why, l', w2. auto.
Qed.

(** The number of counted tokens: at most [n_prompt + n_predict - 1]. *)
Lemma generated_tokens_le fuel l w why l' w' :
  loop_entry l ->
  while_loop E fuel l w = (Normal (why, l'), w') ->
  generated_tokens l' <= n_prompt l + n_predict - 1.
Proof.
  intros (Hpos & Htok & Hn & _ & Hgen & _) Hrun.
  set (P := fun x => generated_tokens x = n_pos x /\ 1 <= n_tokens (batch x) /\
                     n_pos x <= n_prompt l + n_predict - 1 /\
                     n_prompt x = n_prompt l).
  assert (Hstep : forall x wx x' wx',
             P x -> loop_guard x = true ->
             loop_body E x wx = (Normal (Continue, x'), wx') ->
             body_post x Continue x' -> P x').
  { intros x wx x' wx' (H1 & H2 & H3 & H4) Hg _ ((_ & Hn' & _) & _ & _ & Hc).
    unfold loop_guard in Hg. apply Z.ltb_lt in Hg. unfold P. lia. }
  assert (HP : P l) by (unfold P, n_predict, max_tokens; lia).
  destruct (while_loop_inv P Hstep fuel l w why l' w' HP Hrun)
    as (_ & [(_ & _ & Hinv) | (l0 & w0 & Hinv & Hg & _ & Hpost)]).
  - unfold P in Hinv. lia.
  - destruct Hinv as (H1 & H2 & H3 & H4).
    unfold loop_guard in Hg. apply Z.ltb_lt in Hg.
    destruct Hpost as (_ & _ & _ & Hc).
    destruct why; [subst l'; lia | lia | lia | contradiction].
Qed.

End Runs.

(** ** Properties *)

Import Scripted.

(** *** Prompt formatter *)

Lemma string_app_assoc (a b c : string) : (a ++ b) ++ c = a ++ b ++ c.
Proof. induction a; cbn; congruence. Qed.

Lemma string_length_app (a b : string) :
  String.length (a ++ b) = (String.length a + String.length b)%nat.
Proof. induction a; cbn; congruence. Qed.

Lemma substring_prefix (a b : string) : substring 0 (String.length a) (a ++ b) = a.
Proof.
  induction a as [|c a IH]; cbn.
  - now destruct b.
  - now rewrite IH.
Qed.

Lemma substring_middle (a b c : string) :
  substring (String.length a) (String.length b) (a ++ b ++ c) = b.
Proof.
  induction a as [|x a IH]; cbn.
  - apply substring_prefix.
  - exact IH.
Qed.

(** C6: for each of the kinds 0-3 the formatted prompt is the literal prefix
    of that kind, then the raw prompt unchanged (it can be read back at the
    offset of the prefix, and the lengths add up), then the literal suffix of
    that kind, the four pairs being the ChatML, Gemma, Llama3 and Phi
    layouts. *)
Theorem C6_format_wraps_prompt_verbatim :
  forall (prompt : string) (k : TemplateKind),
    format_prompt (kind_id k) prompt = spec_prefix k ++ prompt ++ spec_suffix k /\
    substring (String.length (spec_prefix k)) (String.length prompt)
              (format_prompt (kind_id k) prompt) = prompt /\
    String.length (format_prompt (kind_id k) prompt) =
      (String.length (spec_prefix k) + String.length prompt
       + String.length (spec_suffix k))%nat.
Proof.
  intros prompt k.
  assert (Heq : format_prompt (kind_id k) prompt
                = spec_prefix k ++ prompt ++ spec_suffix k).
  { destruct k; cbn [kind_id format_prompt spec_prefix spec_suffix];
      now rewrite ?string_app_assoc. }
  rewrite Heq. split; [reflexivity|]. split.
  - apply substring_middle.
  - rewrite !string_length_app. lia.
Qed.

(** C7: a template type other than 0, 1, 2 and 3 formats the prompt as
    template type 0 (ChatML) does. *)
Theorem C7_unknown_template_is_chatml :
  forall (prompt : string) (template_type : Z),
    template_type <> 0 -> template_type <> 1 ->
    template_type <> 2 -> template_type <> 3 ->
    format_prompt template_type prompt = format_prompt 0 prompt.
Proof.
  intros prompt k H0 H1 H2 H3.
  destruct k as [|p|p]; [reflexivity| |reflexivity].
  destruct p as [[q|q|]|[q|q|]|]; try reflexivity; contradiction.
Qed.

Lemma C7_unknown_template_is_chatml_witness :
  format_prompt 99 "peanuts, milk" = format_prompt 0 "peanuts, milk" /\
  format_prompt (-7) "peanuts, milk" = format_prompt 0 "peanuts, milk".
Proof.
  split; apply C7_unknown_template_is_chatml; lia.
Defined.

(** *** Termination and the token budget *)

(** C10: [runModel] terminates.  A body execution always completes, and it
    either breaks or advances [n_pos] by exactly 1; from the state in which
    the prefill stage enters the loop, [n_prompt + 31] body executions are
    enough for the loop to finish; and with enough fuel every call returns a
    string. *)
Theorem C10_runModel_terminates :
  forall (St : Type) (E : Engine St),
    (forall l w, exists c l' w',
        loop_body E l w = (Normal (c, l'), w') /\
        ((exists why, c = Break why) \/
         (c = Continue /\ n_pos l' = n_pos l + 1))) /\
    (forall prompt model_path template_type w l w1 fuel,
        run_prefill E prompt model_path template_type w = (Normal l, w1) ->
        (Z.to_nat (n_prompt l + 31) <= fuel)%nat ->
        exists why l' w2, while_loop E fuel l w1 = (Normal (why, l'), w2)) /\
    (forall prompt model_path template_type w,
        exists fuel0, forall fuel, (fuel0 <= fuel)%nat ->
        exists s w', runModel E fuel prompt model_path template_type w
                     = (Return s, w')).
Proof.
  intros St E.
  assert (Hloop : forall prompt model_path template_type w l w1 fuel,
             run_prefill E prompt model_path template_type w = (Normal l, w1) ->
             (Z.to_nat (n_prompt l + 31) <= fuel)%nat ->
             exists why l' w2, while_loop E fuel l w1 = (Normal (why, l'), w2)).
  { intros prompt model_path template_type w l w1 fuel Hp Hfuel.
    destruct (run_prefill_cases _ _ _ _ _ _ _ Hp)
      as [[Habs _] | (l0 & Heq & (Hpos & Htok & Hn & _) & _)];
      [discriminate|].
    inversion Heq; subst l0.
    apply while_loop_terminates; [lia|].
    unfold n_predict, max_tokens. rewrite Hpos.
    replace (n_prompt l + 32 - 0 - 1) with (n_prompt l + 31) by lia.
    exact Hfuel. }
  split; [|split; [exact Hloop|]].
  - intros l w.
    destruct (loop_body E l w) as [o w'] eqn:Hb.
    destruct (loop_body_cases _ _ _ _ _ Hb) as (c & l' & -> & Hpost & _).
    exists c, l', w'. split; [reflexivity|].
    destruct c as [|why]; [right | left; eauto].
    split; [reflexivity|]. apply Hpost.
  - intros prompt model_path template_type w.
    destruct (run_prefill E prompt model_path template_type w) as [o w1] eqn:Hp.
    destruct (run_prefill_cases _ _ _ _ _ _ _ Hp) as [[-> _] | (l & -> & _)].
    + exists O. intros fuel _. exists EmptyString, w1.
      unfold runModel, bind. now rewrite Hp.
    + exists (Z.to_nat (n_prompt l + 31)). intros fuel Hfuel.
      destruct (Hloop _ _ _ _ _ _ fuel Hp Hfuel) as (why & l' & w2 & Hw).
      destruct (run_finish_returns E l' w2) as (otps & w' & Hf & _).
      eexists; exists w'.
      unfold runModel, bind. rewrite Hp, Hw. exact Hf.
Qed.

Lemma C10_runModel_terminates_witness :
  exists l w1,
    run_prefill engine "milk, eggs" "/models/qwen.gguf" 0 (world long_answer)
      = (Normal l, w1) /\
    exists why l' w2, while_loop engine 43 l w1 = (Normal (why, l'), w2).
Proof.
  eexists; eexists; split; [vm_compute; reflexivity|].
  eapply (proj1 (proj2 (C10_runModel_terminates Script engine))
            "milk, eggs" "/models/qwen.gguf" 0 (world long_answer)).
  - vm_compute; reflexivity.
  - vm_compute; lia.
Defined.

(** C1 (the code exceeds the budget): with a prompt of 12 tokens and a model
    that never stops, the loop runs until its guard fails and has then
    counted 43 tokens, not 32; one body execution fewer does not finish
    it. *)
Theorem C1_token_budget_exceeded :
  exists l w1 l' w2,
    run_prefill engine "milk, eggs" "/models/qwen.gguf" 0 (world long_answer)
      = (Normal l, w1) /\
    n_prompt l = 12 /\
    while_loop engine 43 l w1 = (Normal (STOP_BUDGET, l'), w2) /\
    generated_tokens l' = 43 /\
    max_tokens < generated_tokens l' /\
    fst (while_loop engine 42 l w1) = OutOfFuel.
Proof.
  eexists; eexists; eexists; eexists.
  split; [vm_compute; reflexivity|]. split; [reflexivity|].
  split; [vm_compute; reflexivity|].
  split; [reflexivity|]. split; vm_compute; reflexivity.
Qed.

(** *** Resources *)

(** A run that reaches the cleanup releases the sampler, the context and
    the model; the prompt batch stays allocated. *)
Lemma runModel_completed_releases {St : Type} (E : Engine St)
      fuel prompt model_path template_type w l w1 why l' w2 :
  run_prefill E prompt model_path template_type w = (Normal l, w1) ->
  while_loop E fuel l w1 = (Normal (why, l'), w2) ->
  exists s w', runModel E fuel prompt model_path template_type w = (Return s, w') /\
               live w' = RBatch :: live w.
Proof.
  intros Hp Hw.
  destruct (run_prefill_cases _ _ _ _ _ _ _ Hp)
    as [[Habs _] | (l0 & Heq & _ & Hlive)]; [discriminate|].
  destruct (while_loop_inv E (fun _ => True) (fun _ _ _ _ _ _ _ _ => I)
              fuel l w1 why l' w2 I Hw) as (Hlive2 & _).
  destruct (run_finish_returns E l' w2) as (otps & w' & Hf & _ & Hlive3).
  eexists; exists w'. split.
  - unfold runModel, bind. rewrite Hp, Hw. exact Hf.
  - rewrite Hlive3, Hlive2, Hlive. reflexivity.
Qed.

(** C2 (the early returns skip the cleanup): when the context cannot be
    created the function returns with the model still loaded; when
    tokenization fails, with the context and the model; when the prefill
    forward pass fails, with the batch, the context and the model. *)
Theorem C2_early_returns_skip_teardown :
  (exists w', runModel engine 0 "milk, eggs" "/models/qwen.gguf" 0 (world no_context)
              = (Return EmptyString, w') /\
              live w' = [RModel]) /\
  (exists w', runModel engine 0 "milk, eggs" "/models/qwen.gguf" 0 (world no_tokens)
              = (Return EmptyString, w') /\
              live w' = [RContext; RModel]) /\
  (exists w', runModel engine 0 "milk, eggs" "/models/qwen.gguf" 0 (world prefill_fails)
              = (Return EmptyString, w') /\
              live w' = [RBatch; RContext; RModel]).
Proof.
  repeat split; eexists; split; vm_compute; reflexivity.
Qed.

(** *** The newline rule *)

Lemma no_newline_step {St : Type} (E : Engine St) l w l' w' :
  no_newline l -> loop_guard l = true ->
  loop_body E l w = (Normal (Continue, l'), w') ->
  body_post l Continue l' -> no_newline l'.
Proof.
  unfold no_newline. intros Hl _ _ (_ & _ & _ & _ & _ & _ & _ & Hnl).
  destruct (contains_char nl_char (output l')); [|reflexivity].
  rewrite Hnl in Hl; [discriminate | reflexivity].
Qed.

(** *** Empty results and fatal errors *)

Lemma result_string_not_empty ttft_ms itps otps oet_ms output :
  result_string ttft_ms itps otps oet_ms output <> EmptyString.
Proof. unfold result_string. cbn. discriminate. Qed.

(** ** Further properties of [runModel] *)

(** *** Counters when the loop is left *)

Section LoopCounters.

Context {St : Type} (E : Engine St).

(** At every test of the guard the counted tokens equal the position
    cursor, the cursor is at most [n_prompt + 31], and the batch is either
    the prompt batch (before the first body execution) or holds one
    token. *)
Lemma loop_exit_counters fuel l w why l' w' :
  loop_entry l ->
  while_loop E fuel l w = (Normal (why, l'), w') ->
  n_prompt l' = n_prompt l /\
  0 <= n_pos l' <= n_prompt l + 31 /\
  match why with
  | STOP_DECODE => generated_tokens l' = n_pos l' + 1
  | STOP_BUDGET => generated_tokens l' = n_pos l' /\ n_pos l' = n_prompt l + 31
  | _ => generated_tokens l' = n_pos l'
  end.
Proof.
  intros (Hpos & Htok & Hn & _ & Hgen & _) Hrun.
  set (P := fun x => generated_tokens x = n_pos x /\
                     0 <= n_pos x <= n_prompt l + 31 /\
                     n_prompt x = n_prompt l /\
                     ((n_pos x = 0 /\ n_tokens (batch x) = n_prompt l) \/
                      n_tokens (batch x) = 1)).
  assert (Hstep : forall x wx x' wx',
             P x -> loop_guard x = true ->
             loop_body E x wx = (Normal (Continue, x'), wx') ->
             body_post x Continue x' -> P x').
  { intros x wx x' wx' (H1 & H2 & H3 & H4) Hg _ ((_ & Hn' & _) & _ & _ & Hc).
    unfold loop_guard, n_predict, max_tokens in Hg. apply Z.ltb_lt in Hg.
    unfold P. intuition lia. }
  assert (HP : P l) by (unfold P; intuition lia).
  destruct (while_loop_inv E P Hstep fuel l w why l' w' HP Hrun)
    as (_ & [(-> & Hg & Hinv) | (l0 & w0 & Hinv & Hg & _ & Hpost)]).
  - destruct Hinv as (H1 & H2 & H3 & H4).
    unfold loop_guard, n_predict, max_tokens in Hg. apply Z.ltb_ge in Hg.
    intuition lia.
  - destruct Hinv as (H1 & H2 & H3 & H4).
    destruct Hpost as ((_ & Hn' & _) & _ & _ & Hc).
    destruct why; [subst l'; intuition lia | | | contradiction];
      intuition lia.
Qed.

End LoopCounters.

(** X1: when the loop is left because its guard fails, exactly
    [n_prompt + 31] tokens have been counted and the position cursor has the
    same value: the budget that stops a run grows with the length of the
    prompt. *)
Theorem budget_stop_counts_prompt_plus_31 :
  forall (St : Type) (E : Engine St) fuel prompt model_path template_type
         w l w1 l' w2,
    run_prefill E prompt model_path template_type w = (Normal l, w1) ->
    while_loop E fuel l w1 = (Normal (STOP_BUDGET, l'), w2) ->
    generated_tokens l' = n_prompt l + 31 /\ n_pos l' = n_prompt l + 31.
Proof.
  intros St E fuel prompt model_path template_type w l w1 l' w2 Hp Hw.
  destruct (run_prefill_cases _ _ _ _ _ _ _ Hp)
    as [[Habs _] | (l0 & Heq & Hentry & _)]; [discriminate|].
  inversion Heq; subst l0.
  destruct (loop_exit_counters E _ _ _ _ _ _ Hentry Hw) as (_ & _ & Hg & Hn).
  lia.
Qed.

Lemma budget_stop_counts_prompt_plus_31_witness :
  exists l w1 l' w2,
    run_prefill engine "milk, eggs" "/models/qwen.gguf" 0 (world long_answer)
      = (Normal l, w1) /\
    while_loop engine 60 l w1 = (Normal (STOP_BUDGET, l'), w2) /\
    n_prompt l = 12 /\
    generated_tokens l' = n_prompt l + 31 /\ n_pos l' = n_prompt l + 31.
Proof.
  eexists; eexists; eexists; eexists.
  split; [vm_compute; reflexivity|].
  split; [vm_compute; reflexivity|].
  split; [reflexivity|].
  eapply (budget_stop_counts_prompt_plus_31 Script engine 60%nat
            "milk, eggs" "/models/qwen.gguf" 0 (world long_answer)).
  - vm_compute; reflexivity.
  - vm_compute; reflexivity.
Defined.

(** X2: when the loop is left, the position cursor is between 0 and
    [n_prompt + 31]; the counted tokens equal it after an end-of-generation,
    newline or budget stop, and exceed it by one after a failed forward
    pass (the token was counted, the cursor not advanced). *)
Theorem counted_tokens_follow_position :
  forall (St : Type) (E : Engine St) fuel prompt model_path template_type
         w l w1 why l' w2,
    run_prefill E prompt model_path template_type w = (Normal l, w1) ->
    while_loop E fuel l w1 = (Normal (why, l'), w2) ->
    0 <= n_pos l' <= n_prompt l + 31 /\
    generated_tokens l' = (if match why with STOP_DECODE => true | _ => false end
                           then n_pos l' + 1 else n_pos l').
Proof.
  intros St E fuel prompt model_path template_type w l w1 why l' w2 Hp Hw.
  destruct (run_prefill_cases _ _ _ _ _ _ _ Hp)
    as [[Habs _] | (l0 & Heq & Hentry & _)]; [discriminate|].
  inversion Heq; subst l0.
  destruct (loop_exit_counters E _ _ _ _ _ _ Hentry Hw) as (_ & Hb & Hc).
  split; [exact Hb|]. destruct why; intuition.
Qed.

Lemma counted_tokens_follow_position_witness :
  exists l w1 l' w2,
    run_prefill engine "peanuts, milk, wheat flour" "/models/qwen.gguf" 0
                (world scenario_A) = (Normal l, w1) /\
    while_loop engine 50 l w1 = (Normal (STOP_NEWLINE, l'), w2) /\
    output l' = "peanut, milk, wheat" ++ nl /\
    0 <= n_pos l' <= n_prompt l + 31 /\
    generated_tokens l' = n_pos l' /\ n_pos l' = 2.
Proof.
  eexists; eexists; eexists; eexists.
  split; [vm_compute; reflexivity|].
  split; [vm_compute; reflexivity|].
  split; [reflexivity|].
  assert (H := counted_tokens_follow_position Script engine 50%nat
            "peanuts, milk, wheat flour" "/models/qwen.gguf" 0 (world scenario_A)).
  split; [|split; reflexivity].
  eapply H.
  - vm_compute; reflexivity.
  - vm_compute; reflexivity.
Defined.

(** *** The ledger and the log on every exit path *)

Section ExitPaths.

Context {St : Type} (E : Engine St).

Ltac pick_cause :=
  first [ split; reflexivity
        | left; split; reflexivity
        | right; pick_cause ].

(** The log entries the prefill stage appends, and on an early return the
    message of the error together with what is then still allocated. *)
Lemma run_prefill_trace prompt model_path template_type w o w1 :
  run_prefill E prompt model_path template_type w = (o, w1) ->
  exists entries,
    logcat w1 = (logcat w ++ entries)%list /\
    ((exists l, o = Normal l /\ forallb is_info entries = true) \/
     (o = Return EmptyString /\
      forallb is_info (removelast entries) = true /\
      exists msg,
        last entries no_entry = (ANDROID_LOG_ERROR, msg) /\
        ((msg = "Failed to load model" /\ live w1 = live w) \/
         (msg = "Failed to create context" /\ live w1 = RModel :: live w) \/
         (msg = "Tokenization failed" /\
          live w1 = RContext :: RModel :: live w) \/
         (msg = "Prompt decode failed" /\
          live w1 = RBatch :: RContext :: RModel :: live w)))).
Proof.
  unfold run_prefill, model_load, context_init. unfold_run. cbn.
  intros H. case_run H; inversion H; subst; clear H; try lia.
  all: eexists; split; [cbn [logcat]; rewrite <- !app_assoc; reflexivity|].
  all: first [ left; eexists; split; reflexivity
             | right; split; [reflexivity|]; split; [reflexivity|];
               eexists; split; [reflexivity|]; cbn [live]; pick_cause ].
Qed.

Lemma while_loop_logcat fuel : forall l w o w',
  while_loop E fuel l w = (o, w') -> logcat w' = logcat w.
Proof.
  induction fuel as [|fuel IH]; intros l w o w' Hrun;
    cbn in Hrun; destruct (loop_guard l);
    try (inversion Hrun; reflexivity).
  unfold bind in Hrun.
  destruct (loop_body E l w) as [o1 w1] eqn:Hb.
  destruct (loop_body_cases _ _ _ _ _ Hb) as (c & l1 & -> & _ & _ & Hlog).
  destruct c as [|why0].
  - rewrite <- Hlog. eapply IH; eassumption.
  - inversion Hrun; subst. exact Hlog.
Qed.

Lemma run_finish_logcat l w o w' :
  run_finish E l w = (o, w') ->
  exists entry, logcat w' = (logcat w ++ [entry])%list /\ is_info entry = true.
Proof.
  unfold run_finish. unfold_run. cbn.
  intros H. case_run H; inversion H; subst; clear H; try lia.
  all: eexists; split; reflexivity.
Qed.

End ExitPaths.

(** X3: a call that returns a non-empty string has released the sampler,
    the context and the model it acquired, and leaves one resource more
    than it found: the prompt batch of [llama_batch_init], which is never
    freed. *)
Theorem completed_run_leaves_only_the_batch :
  forall (St : Type) (E : Engine St) fuel prompt model_path template_type w s w',
    runModel E fuel prompt model_path template_type w = (Return s, w') ->
    s <> EmptyString ->
    live w' = RBatch :: live w.
Proof.
  intros St E fuel prompt model_path template_type w s w' Hrun Hne.
  destruct (runModel_cases _ _ _ _ _ _ _ _ Hrun)
    as [(Hs & _) | [(Habs & _) | (l & w1 & why & l' & w2 & Hp & Hw & Hf)]].
  - inversion Hs; subst s. now elim Hne.
  - discriminate.
  - destruct (run_prefill_cases _ _ _ _ _ _ _ Hp)
      as [[Habs _] | (l0 & _ & _ & Hlive)]; [discriminate|].
    destruct (while_loop_inv E (fun _ => True) (fun _ _ _ _ _ _ _ _ => I)
                fuel l w1 why l' w2 I Hw) as (Hlive2 & _).
    destruct (run_finish_returns E l' w2) as (otps & w'' & Hf' & _ & Hlive3).
    rewrite Hf in Hf'. inversion Hf'; subst w''.
    rewrite Hlive3, Hlive2, Hlive. reflexivity.
Qed.

Lemma completed_run_leaves_only_the_batch_witness :
  exists s w',
    runModel engine 50 "peanuts, milk, wheat flour" "/models/qwen.gguf" 0
             (world scenario_A) = (Return s, w') /\
    live w' = RBatch :: live (world scenario_A).
Proof.
  eexists; eexists. split; [vm_compute; reflexivity|].
  eapply (completed_run_leaves_only_the_batch Script engine 50%nat
            "peanuts, milk, wheat flour" "/models/qwen.gguf" 0 (world scenario_A)).
  - vm_compute; reflexivity.
  - discriminate.
Defined.

(** X4: a call that returns the empty string has logged exactly one error,
    as its last entry, and what it leaves allocated is determined by that
    error: nothing after a model-load failure, the model after a
    context-creation failure, the context and the model after a
    tokenization failure, and the batch, the context and the model after a
    prefill failure; the sampler is never among them. *)
Theorem failed_run_ledger_by_cause :
  forall (St : Type) (E : Engine St) fuel prompt model_path template_type w w',
    runModel E fuel prompt model_path template_type w = (Return EmptyString, w') ->
    exists entries msg,
      logcat w' = (logcat w ++ entries)%list /\
      forallb is_info (removelast entries) = true /\
      last entries no_entry = (ANDROID_LOG_ERROR, msg) /\
      ((msg = "Failed to load model" /\ live w' = live w) \/
       (msg = "Failed to create context" /\ live w' = RModel :: live w) \/
       (msg = "Tokenization failed" /\ live w' = RContext :: RModel :: live w) \/
       (msg = "Prompt decode failed" /\
        live w' = RBatch :: RContext :: RModel :: live w)).
Proof.
  intros St E fuel prompt model_path template_type w w' Hrun.
  destruct (runModel_cases _ _ _ _ _ _ _ _ Hrun)
    as [(_ & Hp) | [(Habs & _) | (l & w1 & why & l' & w2 & _ & _ & Hf)]].
  - destruct (run_prefill_trace E _ _ _ _ _ _ Hp)
      as (entries & Hlog & [(l & Habs & _) | (_ & Hinfo & msg & Hlast & Hcause)]);
      [discriminate|].
    exists entries, msg. auto.
  - discriminate.
  - destruct (run_finish_returns E l' w2) as (otps & w'' & Hf' & _).
    rewrite Hf in Hf'. inversion Hf'.
Qed.

Lemma failed_run_ledger_by_cause_witness :
  exists w',
    runModel engine 50 "milk, eggs" "/models/qwen.gguf" 0 (world no_tokens)
      = (Return EmptyString, w') /\
    exists entries msg,
      logcat w' = (logcat (world no_tokens) ++ entries)%list /\
      forallb is_info (removelast entries) = true /\
      last entries no_entry = (ANDROID_LOG_ERROR, msg) /\
      ((msg = "Failed to load model" /\ live w' = live (world no_tokens)) \/
       (msg = "Failed to create context" /\
        live w' = RModel :: live (world no_tokens)) \/
       (msg = "Tokenization failed" /\
        live w' = RContext :: RModel :: live (world no_tokens)) \/
       (msg = "Prompt decode failed" /\
        live w' = RBatch :: RContext :: RModel :: live (world no_tokens))).
Proof.
  eexists. split; [vm_compute; reflexivity|].
  eapply (failed_run_ledger_by_cause Script engine 50%nat
            "milk, eggs" "/models/qwen.gguf" 0 (world no_tokens)).
  vm_compute; reflexivity.
Defined.

(** X5: a call that returns a non-empty string has appended only
    information entries to the log: no error is logged on a run that
    reaches the result assembly, a failed forward pass inside the loop
    included. *)
Theorem completed_run_logs_no_error :
  forall (St : Type) (E : Engine St) fuel prompt model_path template_type w s w',
    runModel E fuel prompt model_path template_type w = (Return s, w') ->
    s <> EmptyString ->
    exists entries,
      logcat w' = (logcat w ++ entries)%list /\
      forallb is_info entries = true.
Proof.
  intros St E fuel prompt model_path template_type w s w' Hrun Hne.
  destruct (runModel_cases _ _ _ _ _ _ _ _ Hrun)
    as [(Hs & _) | [(Habs & _) | (l & w1 & why & l' & w2 & Hp & Hw & Hf)]].
  - inversion Hs; subst s. now elim Hne.
  - discriminate.
  - destruct (run_prefill_trace E _ _ _ _ _ _ Hp)
      as (entries & Hlog & [(l0 & _ & Hinfo) | (Habs & _)]); [|discriminate].
    destruct (run_finish_logcat E _ _ _ _ Hf) as (entry & Hlog' & Hentry).
    exists (entries ++ [entry])%list. split.
    + rewrite Hlog', (while_loop_logcat E _ _ _ _ _ Hw), Hlog.
      now rewrite <- app_assoc.
    + rewrite forallb_app, Hinfo. cbn. now rewrite Hentry.
Qed.

Lemma completed_run_logs_no_error_witness :
  exists s w',
    runModel engine 50 "egg noodles, soy sauce" "/models/qwen.gguf" 0
             (world decode_fails) = (Return s, w') /\
    exists entries,
      logcat w' = (logcat (world decode_fails) ++ entries)%list /\
      forallb is_info entries = true.
Proof.
  eexists; eexists. split; [vm_compute; reflexivity|].
  eapply (completed_run_logs_no_error Script engine 50%nat
            "egg noodles, soy sauce" "/models/qwen.gguf" 0 (world decode_fails)).
  - vm_compute; reflexivity.
  - discriminate.
Defined.

(** *** Throughput figures *)

(** X6: in a run that reaches the result assembly each throughput figure is
    the sentinel -1 exactly when its measured duration is zero or negative;
    with a positive decode duration the output throughput is the truncated
    quotient of 1000 times the counted tokens by that duration, between 0
    and [1000 * (n_prompt + 31)]; the elapsed decode time is reported as
    measured, whatever its sign. *)
Theorem throughput_sentinel_iff_no_duration :
  forall (St : Type) (E : Engine St) fuel prompt model_path template_type
         w l w1 why l' w2,
    run_prefill E prompt model_path template_type w = (Normal l, w1) ->
    while_loop E fuel l w1 = (Normal (why, l'), w2) ->
    (itps l' = -1 <-> prefill_ms l' <= 0) /\
    (otps_at E l' w2 = -1 <-> gen_ms_at E l' w2 <= 0) /\
    (0 < gen_ms_at E l' w2 ->
     otps_at E l' w2 = Z.quot (generated_tokens l' * 1000) (gen_ms_at E l' w2) /\
     0 <= otps_at E l' w2 <= 1000 * (n_prompt l + 31)) /\
    (exists w',
        runModel E fuel prompt model_path template_type w
        = (Return (result_string (ttft_ms l') (itps l') (otps_at E l' w2)
                                 (gen_ms_at E l' w2) (output l')),
           w')).
Proof.
  intros St E fuel prompt model_path template_type w l w1 why l' w2 Hp Hw.
  destruct (run_prefill_cases _ _ _ _ _ _ _ Hp)
    as [[Habs _] | (l0 & Heq & Hentry & _)]; [discriminate|].
  inversion Heq; subst l0.
  destruct (loop_exit_counters E _ _ _ _ _ _ Hentry Hw) as (_ & Hpos & Hcount).
  assert (Hgen : 0 <= generated_tokens l' <= n_prompt l + 31).
  { pose proof (generated_tokens_le E _ _ _ _ _ _ Hentry Hw) as Hle.
    unfold n_predict, max_tokens in Hle.
    destruct why; intuition lia. }
  assert (Hfr : itps l' = itps l /\ prefill_ms l' = prefill_ms l).
  { destruct (while_loop_inv E (fun x => itps x = itps l /\ prefill_ms x = prefill_ms l))
      with (fuel := fuel) (l := l) (w := w1) (why := why) (l' := l') (w' := w2)
      as (_ & [(_ & _ & H) | (l0 & w0 & (H1 & H2) & _ & _ & (_ & _ & H3 & H4 & _) & _)]);
      [ | split; reflexivity | exact Hw | exact H | split; congruence ].
    intros x wx x' wx' (H1 & H2) _ _ ((_ & _ & H3 & H4 & _) & _).
    split; congruence. }
  destruct Hfr as (Ei & Ep).
  destruct Hentry as (_ & _ & Hn & _ & _ & _ & _ & Hitps).
  split; [|split; [|split]].
  - rewrite Ei, Ep, Hitps.
    destruct (prefill_ms l >? 0) eqn:Hc.
    + assert (0 <= Z.quot (n_prompt l * 1000) (prefill_ms l))
        by (apply Z.quot_pos; lia).
      lia.
    + split; [lia | reflexivity].
  - unfold otps_at. destruct (gen_ms_at E l' w2 >? 0) eqn:Hc.
    + assert (0 <= Z.quot (generated_tokens l' * 1000) (gen_ms_at E l' w2))
        by (apply Z.quot_pos; lia).
      lia.
    + split; [lia | reflexivity].
  - intros Hdur. unfold otps_at.
    destruct (gen_ms_at E l' w2 >? 0) eqn:Hc; [|lia].
    split; [reflexivity|]. split; [apply Z.quot_pos; lia|].
    rewrite Z.quot_div_nonneg by lia.
    apply Z.le_trans with (generated_tokens l' * 1000); [|lia].
    apply Z.div_le_upper_bound; nia.
  - destruct (run_finish_returns E l' w2) as (otps' & w' & Hf & Hotps & _).
    exists w'. unfold runModel, bind. rewrite Hp, Hw. cbn [snd].
    rewrite Hf, Hotps. reflexivity.
Qed.

Lemma throughput_sentinel_iff_no_duration_witness :
  exists l w1 l' w2,
    run_prefill engine "milk, eggs" "/models/qwen.gguf" 0 (world empty_answer)
      = (Normal l, w1) /\
    while_loop engine 50 l w1 = (Normal (STOP_EOG, l'), w2) /\
    gen_ms_at engine l' w2 = 1 /\
    (0 < gen_ms_at engine l' w2 ->
     otps_at engine l' w2
     = Z.quot (generated_tokens l' * 1000) (gen_ms_at engine l' w2) /\
     0 <= otps_at engine l' w2 <= 1000 * (n_prompt l + 31)).
Proof.
  eexists; eexists; eexists; eexists.
  split; [vm_compute; reflexivity|].
  split; [vm_compute; reflexivity|].
  split; [reflexivity|].
  eapply (throughput_sentinel_iff_no_duration Script engine 50%nat
            "milk, eggs" "/models/qwen.gguf" 0 (world empty_answer)).
  - vm_compute; reflexivity.
  - vm_compute; reflexivity.
Defined.

(** *** The result string can be decoded *)

Lemma string_of_uint_chars c d :
  contains_char c (NilEmpty.string_of_uint d) = true -> metric_char c = true.
Proof.
  induction d as [|d IH|d IH|d IH|d IH|d IH|d IH|d IH|d IH|d IH|d IH];
    cbn [NilEmpty.string_of_uint contains_char]; intros H;
    [discriminate|..].
  all: match type of H with
       | (if Ascii.eqb ?x ?y then _ else _) = _ =>
           destruct (Ascii.eqb x y) eqn:Ec;
             [apply Ascii.eqb_eq in Ec; subst y; reflexivity | exact (IH H)]
       end.
Qed.

Lemma to_string_free c z :
  metric_char c = false -> contains_char c (to_string z) = false.
Proof.
  intros Hc.
  destruct (contains_char c (to_string z)) eqn:H; [|reflexivity].
  assert (Hm : metric_char c = true); [|congruence].
  unfold to_string, NilZero.string_of_int, NilZero.string_of_uint in H.
  destruct (Z.to_int z) as [d|d]; destruct d; cbn [contains_char] in H;
    repeat match type of H with
      | (if Ascii.eqb ?x ?y then _ else _) = _ =>
          let Ec := fresh "Ec" in
          destruct (Ascii.eqb x y) eqn:Ec;
            [apply Ascii.eqb_eq in Ec; subst y; reflexivity|]
      end;
    try discriminate;
    try (eapply string_of_uint_chars; eassumption).
Qed.

Lemma to_string_inj z z' : to_string z = to_string z' -> z = z'.
Proof.
  unfold to_string. intros H.
  assert (Hi : forall x, NilZero.int_of_string (NilZero.string_of_int (Z.to_int x))
                         = Some (Z.to_int x)).
  { intros x. apply NilZero.isi; destruct x; cbn; try discriminate;
      intros Habs; inversion Habs as [Hnil];
      now apply Unsigned.to_uint_nonnil in Hnil. }
  pose proof (Hi z) as Hz. rewrite H, Hi in Hz.
  inversion Hz as [Heq]. symmetry. now apply DecimalZ.to_int_inj.
Qed.

(** Two strings cut at a byte that occurs in neither first part. *)
Lemma app_sep_inj c : forall a a' r r',
  contains_char c a = false -> contains_char c a' = false ->
  a ++ String c r = a' ++ String c r' -> a = a' /\ r = r'.
Proof.
  induction a as [|x a IH]; intros [|x' a'] r r' Ha Ha' H; cbn in *.
  - inversion H. auto.
  - inversion H; subst. now rewrite Ascii.eqb_refl in Ha'.
  - inversion H; subst. now rewrite Ascii.eqb_refl in Ha.
  - inversion H; subst.
    destruct (Ascii.eqb x' c); [discriminate|].
    destruct (IH a' r r' Ha Ha' H2) as (-> & ->). auto.
Qed.

Lemma result_string_header ttft_ms itps otps oet_ms output :
  result_string ttft_ms itps otps oet_ms output
  = metrics_header ttft_ms itps otps oet_ms ++ "|" ++ output.
Proof.
  unfold result_string, metrics_header.
  now rewrite !string_app_assoc.
Qed.

Lemma metrics_header_free c ttft_ms itps otps oet_ms :
  metric_char c = false ->
  contains_char c "TTFT_MS=;ITPS=;OTPS=;OET_MS=" = false ->
  contains_char c (metrics_header ttft_ms itps otps oet_ms) = false.
Proof.
  intros Hm Hlit. unfold metrics_header.
  rewrite !contains_char_app, !(to_string_free c) by exact Hm.
  cbn [contains_char] in *.
  repeat match goal with
    | H : context [Ascii.eqb ?x ?y] |- _ =>
        destruct (Ascii.eqb x y); [discriminate|]
    end.
  reflexivity.
Qed.

(** X7: the result string determines the four metrics and the raw output:
    two result strings are equal only if all five are; and the header in
    front of the separator holds no [|], no newline and no NUL byte, so
    the first [|] of a result is the separator whatever the raw output
    contains. *)
Theorem result_string_decodes :
  forall ttft_ms itps otps oet_ms output ttft_ms' itps' otps' oet_ms' output',
    result_string ttft_ms itps otps oet_ms output
    = result_string ttft_ms' itps' otps' oet_ms' output' ->
    (ttft_ms = ttft_ms' /\ itps = itps' /\ otps = otps' /\ oet_ms = oet_ms' /\
     output = output') /\
    result_string ttft_ms itps otps oet_ms output
    = metrics_header ttft_ms itps otps oet_ms ++ "|" ++ output /\
    contains_char "|" (metrics_header ttft_ms itps otps oet_ms) = false /\
    contains_char nl_char (metrics_header ttft_ms itps otps oet_ms) = false /\
    contains_char nul_char (metrics_header ttft_ms itps otps oet_ms) = false.
Proof.
  intros a b c d o a' b' c' d' o' H.
  split; [|split; [apply result_string_header|
                   repeat split; now apply metrics_header_free]].
  unfold result_string in H. cbn in H.
  inversion H as [H1]; clear H.
  apply (app_sep_inj ";") in H1; try (now apply to_string_free).
  destruct H1 as (Ha & H1). inversion H1 as [H2]; clear H1.
  apply (app_sep_inj ";") in H2; try (now apply to_string_free).
  destruct H2 as (Hb & H2). inversion H2 as [H3]; clear H2.
  apply (app_sep_inj ";") in H3; try (now apply to_string_free).
  destruct H3 as (Hc & H3). inversion H3 as [H4]; clear H3.
  apply (app_sep_inj "|") in H4; try (now apply to_string_free).
  destruct H4 as (Hd & Ho).
  repeat split; try (now apply to_string_inj). exact Ho.
Qed.

Lemma result_string_decodes_witness :
  (6 = 6 /\ 3000 = 3000 /\ 666 = 666 /\ 3 = 3 /\
   "a|b;OET_MS=1|" ++ nl = "a|b;OET_MS=1|" ++ nl) /\
  result_string 6 3000 666 3 ("a|b;OET_MS=1|" ++ nl)
  = metrics_header 6 3000 666 3 ++ "|" ++ "a|b;OET_MS=1|" ++ nl /\
  contains_char "|" (metrics_header 6 3000 666 3) = false /\
  contains_char nl_char (metrics_header 6 3000 666 3) = false /\
  contains_char nul_char (metrics_header 6 3000 666 3) = false.
Proof.
  apply (result_string_decodes 6 3000 666 3 ("a|b;OET_MS=1|" ++ nl)
                               6 3000 666 3 ("a|b;OET_MS=1|" ++ nl)).
  reflexivity.
Defined.

(** *** The prompt batch *)

Lemma vector_resize_length n v : List.length (vector_resize n v) = n.
Proof.
  unfold vector_resize.
  rewrite length_app, length_firstn, repeat_length. lia.
Qed.

Lemma vector_resize_firstn n m v :
  (n <= m)%nat -> (n <= List.length v)%nat ->
  vector_resize n (vector_resize m v) = firstn n v.
Proof.
  intros Hm Hv. unfold vector_resize.
  rewrite length_app, length_firstn, repeat_length.
  replace (n - (Nat.min m (List.length v) + (m - List.length v)))%nat
    with 0%nat by lia.
  cbn [repeat]. rewrite app_nil_r, firstn_app, firstn_firstn, length_firstn.
  replace (n - Nat.min m (List.length v))%nat with 0%nat by lia.
  cbn [firstn]. rewrite app_nil_r. f_equal. lia.
Qed.

Lemma nth_map_seq {A : Type} (f : nat -> A) n i d :
  (i < n)%nat -> nth i (map f (seq 0 n)) d = f i.
Proof.
  intros Hi.
  rewrite (nth_indep _ d (f 0%nat)) by (rewrite length_map, length_seq; lia).
  rewrite map_nth, seq_nth by lia. reflexivity.
Qed.

Lemma map_nth_seq (v : list llama_token) :
  map (fun i => nth i v 0) (seq 0 (List.length v)) = v.
Proof.
  apply (nth_ext _ _ 0 0).
  - now rewrite length_map, length_seq.
  - intros i Hi. rewrite length_map, length_seq in Hi.
    now apply (nth_map_seq (fun k => nth k v 0)).
Qed.

Lemma list_set_length {A : Type} i (x : A) l :
  List.length (list_set i x l) = List.length l.
Proof.
  revert i; induction l as [|h t IH]; intros [|i]; cbn; auto.
Qed.

Lemma nth_list_set {A : Type} (x d : A) : forall l i j,
  (j < List.length l)%nat ->
  nth i (list_set j x l) d = if Nat.eqb i j then x else nth i l d.
Proof.
  induction l as [|h t IH]; intros i j Hj; cbn in Hj; [lia|].
  destruct j as [|j], i as [|i]; cbn; try reflexivity.
  apply IH. lia.
Qed.

Lemma run_prefill_batch {St : Type} (E : Engine St)
      prompt model_path template_type w l w1 :
  run_prefill E prompt model_path template_type w = (Normal l, w1) ->
  n_prompt l = fst (tokenizer_answer E prompt model_path template_type w) /\
  batch l =
    prefill_batch (n_prompt l)
      (vector_resize (Z.to_nat (n_prompt l))
         (vector_resize
            (Z.to_nat (Z.of_nat (String.length (format_prompt template_type prompt))
                       + 64))
            (snd (tokenizer_answer E prompt model_path template_type w)))).
Proof.
  unfold tokenizer_answer, tokenizer_state, run_prefill, model_load, context_init.
  unfold_run. cbn.
  intros H. case_run H; inversion H; subst; clear H; try lia.
  all: split; reflexivity.
Qed.

(** X8: the batch of the prefill forward pass has one entry per prompt
    token: its tokens are the vector the tokenizer filled, resized to
    [n_prompt] (the first [n_prompt] tokens written, when the tokenizer
    wrote that many and stayed within the buffer), entry [i] has position
    [i], one sequence id, 0, and logits are requested for the last entry
    only. *)
Theorem prefill_batch_shape :
  forall (St : Type) (E : Engine St) prompt model_path template_type w l w1,
    run_prefill E prompt model_path template_type w = (Normal l, w1) ->
    let n := Z.to_nat (n_prompt l) in
    let answer := tokenizer_answer E prompt model_path template_type w in
    let capacity := (String.length (format_prompt template_type prompt) + 64)%nat in
    n_prompt l = fst answer /\ (0 < n)%nat /\
    exists positions counts ids flags,
      batch l = mk_batch (n_prompt l) (token (batch l)) (Some positions)
                         (Some counts) (Some ids) (Some flags) /\
      List.length (token (batch l)) = n /\
      ((n <= capacity)%nat -> (n <= List.length (snd answer))%nat ->
       token (batch l) = firstn n (snd answer)) /\
      List.length positions = n /\ List.length counts = n /\
      List.length ids = n /\ List.length flags = n /\
      forall i, (i < n)%nat ->
        nth i positions 0 = Z.of_nat i /\
        nth i counts 0 = 1 /\
        nth i ids [] = [0] /\
        nth i flags false = Nat.eqb i (n - 1).
Proof.
  intros St E prompt model_path template_type w l w1 Hp n answer capacity.
  destruct (run_prefill_batch E _ _ _ _ _ _ Hp) as (Hn & Hb).
  destruct (run_prefill_cases _ _ _ _ _ _ _ Hp)
    as [[Habs _] | (l0 & Heq & (_ & _ & Hpos & _) & _)]; [discriminate|].
  inversion Heq; subst l0.
  split; [exact Hn|]. split; [subst n; lia|].
  rewrite Hb. unfold prefill_batch. fold n.
  cbn [token n_tokens].
  eexists; eexists; eexists; eexists.
  split; [reflexivity|].
  assert (Htok : map (fun i => nth i (vector_resize n
                   (vector_resize (Z.to_nat (Z.of_nat (String.length
                      (format_prompt template_type prompt)) + 64))
                      (snd (tokenizer_answer E prompt model_path template_type w)))) 0)
                   (seq 0 n)
                 = vector_resize n
                     (vector_resize (Z.to_nat (Z.of_nat (String.length
                        (format_prompt template_type prompt)) + 64))
                        (snd (tokenizer_answer E prompt model_path template_type w)))).
  { match goal with
    | |- map _ (seq 0 n) = ?v =>
        pose proof (map_nth_seq v) as Hm;
        rewrite vector_resize_length in Hm; exact Hm
    end. }
  rewrite Htok.
  split; [apply vector_resize_length|].
  split.
  { intros Hcap Hlen. apply vector_resize_firstn; [|exact Hlen].
    subst capacity. lia. }
  rewrite list_set_length, !length_map, !length_seq.
  repeat split; try reflexivity.
  - now apply (nth_map_seq Z.of_nat).
  - now apply (nth_map_seq (fun _ => 1)).
  - now apply (nth_map_seq (fun _ => [0])).
  - rewrite nth_list_set by (rewrite length_map, length_seq; lia).
    replace (Z.to_nat (n_prompt l - 1)) with (n - 1)%nat by (subst n; lia).
    destruct (Nat.eqb i (n - 1)); [reflexivity|].
    now apply (nth_map_seq (fun _ => false)).
Qed.

Lemma prefill_batch_shape_witness :
  exists l w1,
    run_prefill engine "milk, eggs" "/models/qwen.gguf" 0 (world long_answer)
      = (Normal l, w1) /\
    n_prompt l = 12 /\
    token (batch l) = [11; 12; 13; 14; 15; 16; 17; 18; 19; 20; 21; 22] /\
    n_prompt l
    = fst (tokenizer_answer engine "milk, eggs" "/models/qwen.gguf" 0
                            (world long_answer)).
Proof.
  eexists; eexists.
  split; [vm_compute; reflexivity|].
  split; [reflexivity|]. split; [reflexivity|].
  eapply (prefill_batch_shape Script engine
            "milk, eggs" "/models/qwen.gguf" 0 (world long_answer)).
  vm_compute; reflexivity.
Defined.

(** *** Newlines in the raw output *)

(** X11: the raw output of a run holds a newline exactly when the loop was
    left by the newline rule; after an end-of-generation, budget or
    decode-failure stop the raw output is a single line without line
    break. *)
Theorem newline_iff_newline_stop :
  forall (St : Type) (E : Engine St) fuel prompt model_path template_type
         w l w1 why l' w2,
    run_prefill E prompt model_path template_type w = (Normal l, w1) ->
    while_loop E fuel l w1 = (Normal (why, l'), w2) ->
    (contains_char nl_char (output l') = true <-> why = STOP_NEWLINE).
Proof.
  intros St E fuel prompt model_path template_type w l w1 why l' w2 Hp Hw.
  destruct (run_prefill_cases _ _ _ _ _ _ _ Hp)
    as [[Habs _] | (l0 & Heq & (_ & _ & _ & Hout & _) & _)]; [discriminate|].
  inversion Heq; subst l0.
  assert (Hentry : no_newline l) by (unfold no_newline; now rewrite Hout).
  destruct (while_loop_inv E no_newline (no_newline_step E)
              fuel l w1 why l' w2 Hentry Hw)
    as (_ & [(-> & _ & Hinv) | (l0 & w0 & Hinv & _ & _ & Hpost)]);
    unfold no_newline in Hinv.
  - rewrite Hinv. split; discriminate.
  - destruct Hpost as (_ & _ & _ & Hc). destruct why.
    + subst l'. rewrite Hinv. split; discriminate.
    + destruct Hc as (_ & _ & _ & _ & Hc). rewrite Hc. tauto.
    + destruct Hc as (_ & _ & _ & _ & Hc).
      destruct (contains_char nl_char (output l')); [|split; discriminate].
      rewrite Hc in Hinv; [discriminate | reflexivity].
    + contradiction.
Qed.

Lemma newline_iff_newline_stop_witness :
  exists l w1 l' w2,
    run_prefill engine "egg noodles, soy sauce" "/models/qwen.gguf" 0
                (world decode_fails) = (Normal l, w1) /\
    while_loop engine 50 l w1 = (Normal (STOP_DECODE, l'), w2) /\
    output l' = "egg, soy" /\
    (contains_char nl_char (output l') = true <-> STOP_DECODE = STOP_NEWLINE).
Proof.
  eexists; eexists; eexists; eexists.
  split; [vm_compute; reflexivity|].
  split; [vm_compute; reflexivity|].
  split; [reflexivity|].
  eapply (newline_iff_newline_stop Script engine 50%nat
            "egg noodles, soy sauce" "/models/qwen.gguf" 0 (world decode_fails)).
  - vm_compute; reflexivity.
  - vm_compute; reflexivity.
Defined.

(** ** The JNI boundary *)

Lemma c_str_app a b :
  contains_char nul_char a = false -> c_str (a ++ b) = a ++ c_str b.
Proof.
  induction a as [|x a IH]; cbn; intros H; [reflexivity|].
  destruct (Ascii.eqb x nul_char); [discriminate|].
  now rewrite IH.
Qed.

Lemma c_str_nul_free s : contains_char nul_char (c_str s) = false.
Proof.
  induction s as [|x s IH]; cbn; [reflexivity|].
  destruct (Ascii.eqb x nul_char) eqn:Hx; cbn; [reflexivity|].
  now rewrite Hx.
Qed.

Lemma c_str_result_string ttft_ms itps otps oet_ms output :
  c_str (result_string ttft_ms itps otps oet_ms output)
  = result_string ttft_ms itps otps oet_ms (c_str output).
Proof.
  rewrite !result_string_header.
  rewrite c_str_app by (now apply metrics_header_free).
  reflexivity.
Qed.

(** With enough fuel a call of [runModel] returns. *)
Lemma runModel_returns {St : Type} (E : Engine St)
      prompt model_path template_type w :
  exists fuel0, forall fuel, (fuel0 <= fuel)%nat ->
    exists s w', runModel E fuel prompt model_path template_type w
                 = (Return s, w').
Proof.
  destruct (run_prefill E prompt model_path template_type w) as [o w1] eqn:Hp.
  destruct (run_prefill_cases _ _ _ _ _ _ _ Hp)
    as [[-> _] | (l & -> & (Hpos & Htok & Hn & _) & _)].
  - exists O. intros fuel _. exists EmptyString, w1.
    unfold runModel, bind. now rewrite Hp.
  - exists (Z.to_nat (n_prompt l + n_predict - n_pos l - 1)). intros fuel Hfuel.
    destruct (while_loop_terminates E fuel l w1) as (why & l' & w2 & Hw);
      [lia | exact Hfuel |].
    destruct (run_finish_returns E l' w2) as (otps & w' & Hf & _).
    eexists; exists w'.
    unfold runModel, bind. rewrite Hp, Hw. exact Hf.
Qed.

(** X9: [inferAllergens] calls [runModel] with the C-string contents of the
    two Java strings (the bytes before their first NUL) and the template
    type unchanged, and adds nothing to the engine state or the ledger.  It
    hands [NewStringUTF] the empty string when [runModel] returned it, and
    otherwise the complete metrics header, the separator and the raw output
    cut before its first NUL byte. *)
Theorem inferAllergens_result :
  forall (St jstring : Type) (E : Engine St) (env : JNIEnv jstring)
         fuel inputPrompt modelPath templateType w path_buf prompt_buf o w'',
    GetStringUTFChars env modelPath = Some path_buf ->
    GetStringUTFChars env inputPrompt = Some prompt_buf ->
    inferAllergens E env fuel inputPrompt modelPath templateType w = (o, w'') ->
    exists w0 o1 w1,
      eng w0 = eng w /\ live w0 = live w /\
      runModel E fuel (c_str prompt_buf) (c_str path_buf) templateType w0
      = (o1, w1) /\
      eng w'' = eng w1 /\ live w'' = live w1 /\
      ((o1 = OutOfFuel /\ o = OutOfFuel) \/
       (o1 = Return EmptyString /\ o = Normal (NewStringUTF env EmptyString)) \/
       (exists ttft_ms itps otps oet_ms output,
           o1 = Return (result_string ttft_ms itps otps oet_ms output) /\
           o = Normal (NewStringUTF env
                         (result_string ttft_ms itps otps oet_ms (c_str output))))).
Proof.
  intros St jstring E env fuel inputPrompt modelPath templateType w
         path_buf prompt_buf o w'' Hpath Hprompt.
  unfold inferAllergens, string_of_chars. rewrite Hpath, Hprompt.
  unfold bind at 1. unfold android_log_print at 1.
  unfold bind at 1. unfold ret at 1.
  unfold bind at 1. unfold android_log_print at 1.
  unfold bind at 1. unfold android_log_print at 1.
  unfold bind at 1. unfold ret at 1.
  unfold bind at 1. unfold invoke.
  match goal with
  | |- context [runModel E fuel _ _ templateType ?w0] =>
      set (w0' := w0);
      destruct (runModel E fuel (c_str prompt_buf) (c_str path_buf)
                         templateType w0') as [o1 w1] eqn:Hrun
  end.
  intros H. exists w0', o1, w1.
  split; [reflexivity|]. split; [reflexivity|]. split; [exact Hrun|].
  destruct (runModel_cases _ _ _ _ _ _ _ _ Hrun)
    as [(-> & _) | [(-> & _) | (l & w1' & why & l' & w2 & _ & _ & Hf)]].
  - cbn in H. inversion H; subst.
    split; [reflexivity|]. split; [reflexivity|]. right; left. auto.
  - inversion H; subst.
    split; [reflexivity|]. split; [reflexivity|]. left. auto.
  - destruct (run_finish_returns E l' w2) as (otps & w3 & Hf' & _).
    rewrite Hf in Hf'. inversion Hf'; subst o1 w3.
    unfold bind, android_log_print, ret in H. inversion H; subst.
    split; [reflexivity|]. split; [reflexivity|]. right; right.
    do 5 eexists. split; [reflexivity|].
    now rewrite <- c_str_result_string.
Qed.

Lemma inferAllergens_result_witness :
  exists o w'',
    inferAllergens engine ScriptedJNI.env 50
                   ("egg noodles" ++ String nul_char "ignored") "/models/qwen.gguf"
                   0 (world decode_fails) = (o, w'') /\
    exists w0 o1 w1,
      eng w0 = eng (world decode_fails) /\ live w0 = live (world decode_fails) /\
      runModel engine 50 (c_str ("egg noodles" ++ String nul_char "ignored"))
               (c_str "/models/qwen.gguf") 0 w0 = (o1, w1) /\
      eng w'' = eng w1 /\ live w'' = live w1 /\
      ((o1 = OutOfFuel /\ o = OutOfFuel) \/
       (o1 = Return EmptyString /\
        o = Normal (NewStringUTF ScriptedJNI.env EmptyString)) \/
       (exists ttft_ms itps otps oet_ms output,
           o1 = Return (result_string ttft_ms itps otps oet_ms output) /\
           o = Normal (NewStringUTF ScriptedJNI.env
                         (result_string ttft_ms itps otps oet_ms (c_str output))))).
Proof.
  eexists; eexists. split; [vm_compute; reflexivity|].
  eapply (inferAllergens_result Script string engine ScriptedJNI.env 50%nat
            ("egg noodles" ++ String nul_char "ignored") "/models/qwen.gguf"
            0 (world decode_fails)).
  - reflexivity.
  - reflexivity.
  - vm_compute; reflexivity.
Defined.

(** X10: when [GetStringUTFChars] gives both strings, [inferAllergens]
    returns a Java string: with enough fuel for the generation loop the
    call ends in a [NewStringUTF] value, never in a fault. *)
Theorem inferAllergens_returns :
  forall (St jstring : Type) (E : Engine St) (env : JNIEnv jstring)
         inputPrompt modelPath templateType w path_buf prompt_buf,
    GetStringUTFChars env modelPath = Some path_buf ->
    GetStringUTFChars env inputPrompt = Some prompt_buf ->
    exists fuel0, forall fuel, (fuel0 <= fuel)%nat ->
      exists s w'',
        inferAllergens E env fuel inputPrompt modelPath templateType w
        = (Normal (NewStringUTF env (c_str s)), w'').
Proof.
  intros St jstring E env inputPrompt modelPath templateType w
         path_buf prompt_buf Hpath Hprompt.
  unfold inferAllergens, string_of_chars. rewrite Hpath, Hprompt.
  unfold bind at 1. unfold android_log_print at 1.
  unfold bind at 1. unfold ret at 1.
  unfold bind at 1. unfold android_log_print at 1.
  unfold bind at 1. unfold android_log_print at 1.
  unfold bind at 1. unfold ret at 1.
  match goal with
  | |- context [runModel E _ _ _ templateType] =>
      match goal with
      | |- context [bind (invoke _) _ ?w0] =>
          destruct (runModel_returns E (c_str prompt_buf) (c_str path_buf)
                                     templateType w0) as (fuel0 & Hret)
      end
  end.
  exists fuel0. intros fuel Hfuel.
  destruct (Hret fuel Hfuel) as (s & w' & Hrun).
  exists s. eexists.
  unfold bind at 1. unfold invoke. rewrite Hrun.
  unfold bind, android_log_print, ret. reflexivity.
Qed.

Lemma inferAllergens_returns_witness :
  exists fuel0, forall fuel, (fuel0 <= fuel)%nat ->
    exists s w'',
      inferAllergens engine ScriptedJNI.env fuel "milk, eggs" "/models/qwen.gguf"
                     0 (world long_answer)
      = (Normal (NewStringUTF ScriptedJNI.env (c_str s)), w'').
Proof.
  eapply (inferAllergens_returns Script string engine ScriptedJNI.env
            "milk, eggs" "/models/qwen.gguf" 0 (world long_answer));
    reflexivity.
Defined.

(** ** Runs in terms of the engine's answers *)

Section RunAnswers.

Context {St : Type} (E : Engine St).

(** The outcome of the prefill stage, by the engine's answers. *)
Lemma run_prefill_answers prompt model_path template_type w o w1 :
  run_prefill E prompt model_path template_type w = (o, w1) ->
  (fst (load_answer E model_path w) = false /\ o = Return EmptyString) \/
  (fst (load_answer E model_path w) = true /\
   fst (context_answer E model_path w) = false /\ o = Return EmptyString) \/
  (fst (load_answer E model_path w) = true /\
   fst (context_answer E model_path w) = true /\
   fst (tokenizer_answer E prompt model_path template_type w) <= 0 /\
   o = Return EmptyString) \/
  (fst (load_answer E model_path w) = true /\
   fst (context_answer E model_path w) = true /\
   0 < fst (tokenizer_answer E prompt model_path template_type w) /\
   fst (prefill_answer E prompt model_path template_type w) <> 0 /\
   o = Return EmptyString) \/
  (prefill_passes E prompt model_path template_type w /\
   exists l,
     o = Normal l /\
     t_start l = start_clock E w /\
     n_prompt l = fst (tokenizer_answer E prompt model_path template_type w) /\
     prefill_ms l = measured_prefill_ms E prompt model_path template_type w /\
     t_gen_start l = fst (gen_start_clock E prompt model_path template_type w) /\
     eng w1 = entry_state E prompt model_path template_type w).
Proof.
  unfold run_prefill, model_load, context_init. unfold_run. cbn.
  intros H. case_run H; inversion H; subst; clear H; try lia.
  all: repeat match goal with
         | H : negb _ = true |- _ => apply negb_true_iff in H
         | H : negb _ = false |- _ => apply negb_false_iff in H
         | H : (_ <=? _) = true |- _ => apply Z.leb_le in H
         | H : (_ <=? _) = false |- _ => apply Z.leb_gt in H
         | H : (_ =? _) = true |- _ => apply Z.eqb_eq in H
         | H : (_ =? _) = false |- _ => apply Z.eqb_neq in H
         end.
  all: first
         [ left; split; [assumption | reflexivity]
         | right; left; split; [assumption|]; split; [assumption | reflexivity]
         | right; right; left; split; [assumption|]; split; [assumption|];
           split; [assumption | reflexivity]
         | right; right; right; left; split; [assumption|]; split; [assumption|];
           split; [assumption|]; split; [assumption | reflexivity]
         | right; right; right; right; split;
           [ repeat split; assumption
           | eexists; repeat split; reflexivity ] ].
Qed.

(** One body execution, by the engine's answers. *)
Lemma loop_body_answers l w o w' :
  loop_body E l w = (o, w') ->
  (sampled_eog E (eng w) = true /\ o = Normal (Break STOP_EOG, l) /\
   eng w' = after_sample E (eng w)) \/
  (sampled_eog E (eng w) = false /\
   exists c l',
     o = Normal (c, l') /\
     first_token_seen l' = true /\
     ttft_ms l' = (if first_token_seen l then ttft_ms l
                   else duration_ms (t_start l) (first_token_clock E (eng w))) /\
     output l' = output l ++ sampled_fragment E l (eng w) /\
     ((c = Break STOP_NEWLINE /\
       0 < fst (sampled_piece E l (eng w)) /\
       contains_char nl_char (output l ++ sampled_fragment E l (eng w)) = true /\
       eng w' = piece_state E l (eng w) /\
       generated_tokens l' = generated_tokens l /\
       n_pos l' = n_pos l /\ batch l' = batch l) \/
      ((fst (sampled_piece E l (eng w)) <= 0 \/
        contains_char nl_char (output l ++ sampled_fragment E l (eng w)) = false) /\
       generated_tokens l' = generated_tokens l + 1 /\
       eng w' = snd (step_answer E l (eng w)) /\
       ((c = Break STOP_DECODE /\ fst (step_answer E l (eng w)) <> 0 /\
         n_pos l' = n_pos l) \/
        (c = Continue /\ fst (step_answer E l (eng w)) = 0 /\
         n_pos l' = n_pos l + 1))))).
Proof.
  unfold loop_body. unfold_run. cbn.
  intros H. case_run H; inversion H; subst; clear H.
  all: repeat match goal with
         | H : ?b = _, H' : context [?b] |- _ => rewrite H in H'; cbn in H'
         end; try discriminate.
  all: repeat match goal with
         | H : negb _ = true |- _ => apply negb_true_iff in H
         | H : negb _ = false |- _ => apply negb_false_iff in H
         end.
  all: try (left; split; [assumption|]; split; reflexivity).
  all: right; split; [assumption|]; eexists; eexists; split; [reflexivity|].
  all: unfold sampled_fragment, sampled_piece, step_answer, piece_state,
         first_token_clock, sampled_token, after_sample, append_n in *; cbn.
  all: repeat match goal with
         | H : first_token_seen _ = _ |- _ => rewrite H in *
         end; cbn.
  all: repeat match goal with
         | H : (?a >? ?b) = _ |- context [?a >? ?b] => rewrite H; cbn
         end.
  all: repeat match goal with
         | H : (_ >? _) = true |- _ => apply Z.gtb_lt in H
         | H : (_ >? _) = false |- _ =>
             rewrite Z.gtb_ltb in H; apply Z.ltb_ge in H
         | H : (_ =? _) = true |- _ => apply Z.eqb_eq in H
         | H : (_ =? _) = false |- _ => apply Z.eqb_neq in H
         end.
  all: rewrite ?string_app_empty.
  all: split; [reflexivity|]; split; [reflexivity|]; split; [reflexivity|].
  all: first
         [ left; solve [repeat split; try reflexivity; try assumption]
         | right; split;
           [ first [left; assumption | right; assumption] |];
           split; [reflexivity|]; split; [reflexivity|];
           first [ left; solve [repeat split; try reflexivity; try assumption]
                 | right; solve [repeat split; try reflexivity; try assumption] ] ].
Qed.

(** The final stage, by the engine's answers. *)
Lemma run_finish_answers l w :
  exists w',
    run_finish E l w =
      (Return ("TTFT_MS=" ++ to_string (ttft_ms l) ++
               ";ITPS=" ++ to_string (itps l) ++
               ";OTPS=" ++ to_string
                             (answered_otps (generated_tokens l)
                                (duration_ms (t_gen_start l) (gen_end_clock E (eng w)))) ++
               ";OET_MS=" ++ to_string
                               (duration_ms (t_gen_start l) (gen_end_clock E (eng w))) ++
               "|" ++ output l), w') /\
    eng w' = after_cleanup E (eng w).
Proof.
  unfold answered_otps, gen_end_clock, after_cleanup, run_finish. unfold_run. cbn.
  destruct (duration_ms (t_gen_start l) (fst (clock_now E (eng w))) >? 0) eqn:Hpos.
  - destruct (duration_ms (t_gen_start l) (fst (clock_now E (eng w))) =? 0) eqn:Hz;
      [lia|].
    eexists; split; reflexivity.
  - eexists; split; reflexivity.
Qed.

Lemma while_loop_from_state k : forall l w l0 w0 fuel,
  loop_state E k l w = Some (l0, w0) ->
  while_loop E (k + fuel) l w = while_loop E fuel l0 w0.
Proof.
  induction k as [|k IH]; intros l w l0 w0 fuel H; cbn [loop_state] in H.
  - inversion H. reflexivity.
  - cbn [Nat.add while_loop]. destruct (loop_guard l); [|discriminate].
    unfold bind.
    destruct (loop_body E l w) as [[[[|why] l1]| | |] w1]; try discriminate.
    cbn. now apply IH.
Qed.

(** What [k] full body executions do to the locals. *)
Lemma loop_state_facts k : forall l w l0 w0,
  loop_state E k l w = Some (l0, w0) ->
  generated_tokens l0 = generated_tokens l + Z.of_nat k /\
  frame l l0 /\
  (first_token_seen l = true ->
   first_token_seen l0 = true /\ ttft_ms l0 = ttft_ms l) /\
  (first_token_seen l = false ->
   (k = O /\ l0 = l /\ w0 = w) \/
   (first_token_seen l0 = true /\
    ttft_ms l0 = duration_ms (t_start l) (first_token_clock E (eng w)))).
Proof.
  induction k as [|k IH]; intros l w l0 w0 H; cbn [loop_state] in H.
  - inversion H; subst. unfold frame. repeat split; auto; lia.
  - destruct (loop_guard l); [|discriminate].
    destruct (loop_body E l w) as [o w1] eqn:Hb.
    destruct (loop_body_cases E _ _ _ _ Hb) as (c & l1 & -> & Hpost & _).
    destruct c as [|why]; [|discriminate].
    destruct (loop_body_answers _ _ _ _ Hb)
      as [(_ & Habs & _) | (_ & c & l1' & Heq & _ & Httft & _)];
      [discriminate|].
    inversion Heq; subst c l1'.
    destruct Hpost as ((F1 & F2 & F3 & F4 & F5) & Hseen & _ & _ & _ & Hgen & Hs1 & _).
    destruct (IH _ _ _ _ H) as (G & (K1 & K2 & K3 & K4 & K5) & Ks & _).
    destruct (Ks Hs1) as (S1 & S2).
    split; [lia|]. split; [unfold frame; repeat split; congruence|].
    split.
    + intros Hl. destruct (Hseen Hl) as (_ & Ht). split; [assumption | congruence].
    + intros Hl. right. split; [assumption|].
      rewrite S2, Httft, Hl. reflexivity.
Qed.

(** The locals with which the loop is entered, by the engine's answers. *)
Lemma run_prefill_normal prompt model_path template_type w l w1 :
  run_prefill E prompt model_path template_type w = (Normal l, w1) ->
  prefill_passes E prompt model_path template_type w /\
  loop_entry l /\
  t_start l = start_clock E w /\
  n_prompt l = fst (tokenizer_answer E prompt model_path template_type w) /\
  prefill_ms l = measured_prefill_ms E prompt model_path template_type w /\
  itps l = answered_itps E prompt model_path template_type w /\
  t_gen_start l = fst (gen_start_clock E prompt model_path template_type w) /\
  eng w1 = entry_state E prompt model_path template_type w.
Proof.
  intros Hp.
  destruct (run_prefill_cases E _ _ _ _ _ _ Hp)
    as [[Habs _] | (l0 & Heq & Hentry & _)]; [discriminate|].
  inversion Heq; subst l0.
  destruct (run_prefill_answers _ _ _ _ _ _ Hp)
    as [(_ & Habs) | [(_ & _ & Habs) | [(_ & _ & _ & Habs)
        | [(_ & _ & _ & _ & Habs)
          | (Hpass & l0 & Heq' & H1 & H2 & H3 & H4 & H5)]]]];
    try discriminate.
  inversion Heq'; subst l0.
  split; [exact Hpass|]. split; [exact Hentry|].
  split; [exact H1|]. split; [exact H2|]. split; [exact H3|].
  split; [|split; assumption].
  unfold answered_itps. rewrite <- H2, <- H3. apply Hentry.
Qed.

(** A run whose loop is left by a [break] of the body execution that
    follows [k] full ones. *)
Lemma run_breaks_after fuel prompt model_path template_type w l w1
      k l0 w0 why l' w' :
  run_prefill E prompt model_path template_type w = (Normal l, w1) ->
  loop_state E k l w1 = Some (l0, w0) ->
  loop_guard l0 = true ->
  loop_body E l0 w0 = (Normal (Break why, l'), w') ->
  (k < fuel)%nat ->
  exists w'',
    runModel E fuel prompt model_path template_type w =
      (Return ("TTFT_MS=" ++ to_string (ttft_ms l') ++
               ";ITPS=" ++ to_string
                             (answered_itps E prompt model_path template_type w) ++
               ";OTPS=" ++ to_string
                             (answered_otps (generated_tokens l')
                                (decode_ms E prompt model_path template_type w
                                           (eng w'))) ++
               ";OET_MS=" ++ to_string
                               (decode_ms E prompt model_path template_type w
                                          (eng w')) ++
               "|" ++ output l'), w'') /\
    eng w'' = after_cleanup E (eng w').
Proof.
  intros Hp Hk Hg Hb Hfuel.
  destruct (run_prefill_normal _ _ _ _ _ _ Hp)
    as (_ & _ & _ & _ & _ & Hitps & Hgs & _).
  destruct (loop_state_facts _ _ _ _ _ Hk) as (_ & (_ & _ & K3 & _ & K5) & _).
  destruct (loop_body_cases E _ _ _ _ Hb)
    as (c & l1 & Heq & ((_ & _ & F3 & _ & F5) & _) & _).
  inversion Heq; subst c l1.
  assert (Hw : while_loop E fuel l w1 = (Normal (why, l'), w')).
  { replace fuel with (k + S (fuel - S k))%nat by lia.
    rewrite (while_loop_from_state _ _ _ _ _ _ Hk).
    cbn [while_loop]. rewrite Hg. unfold bind. rewrite Hb. reflexivity. }
  destruct (run_finish_answers l' w') as (w'' & Hf & Heng).
  exists w''. split; [|exact Heng].
  unfold runModel, bind. rewrite Hp, Hw. cbn [snd]. rewrite Hf.
  unfold decode_ms. rewrite <- Hitps, <- Hgs.
  rewrite F3, K3, F5, K5. reflexivity.
Qed.

(** Whenever a body execution of a run sets or keeps [ttft_ms], its value
    is the time between the start of the call and the clock reading that
    follows the first sampling of the loop. *)
Lemma first_token_time prompt model_path template_type w l w1 k l0 w0 :
  run_prefill E prompt model_path template_type w = (Normal l, w1) ->
  loop_state E k l w1 = Some (l0, w0) ->
  (if first_token_seen l0 then ttft_ms l0
   else duration_ms (t_start l0) (first_token_clock E (eng w0)))
  = first_token_ms E prompt model_path template_type w.
Proof.
  intros Hp Hk.
  destruct (run_prefill_normal _ _ _ _ _ _ Hp)
    as (_ & (_ & _ & _ & _ & _ & Hseen & _) & Hts & _ & _ & _ & _ & Heng).
  destruct (loop_state_facts _ _ _ _ _ Hk) as (_ & _ & _ & Hfirst).
  unfold first_token_ms. rewrite <- Hts, <- Heng.
  destruct (Hfirst Hseen) as [(_ & -> & ->) | (Hs & Ht)].
  - now rewrite Hseen.
  - now rewrite Hs.
Qed.

Lemma sampled_fragment_pos l s :
  0 < fst (sampled_piece E l s) ->
  sampled_fragment E l s
  = substring 0 (Z.to_nat (fst (sampled_piece E l s))) (snd (sampled_piece E l s)).
Proof.
  intros H. unfold sampled_fragment.
  destruct (fst (sampled_piece E l s) >? 0) eqn:Hc; [reflexivity | lia].
Qed.

End RunAnswers.

(** ** The newline rule, decode failures, empty results and the metrics,
    on the engine's answers *)

(** C3 (counterexample): the model's tokens decode to
    [peanut, milk, wheat] and a newline: the raw output returned ends with
    that newline; and when the fragment holding the newline goes on with
    [Note], the raw output returned goes on with it too. *)
Lemma C3_newline_is_kept :
  fst (runModel engine 50 "peanuts, milk, wheat flour" "/models/qwen.gguf" 0
                (world scenario_A))
  = Return ("TTFT_MS=6;ITPS=3000;OTPS=666;OET_MS=3|peanut, milk, wheat" ++ nl) /\
  fst (runModel engine 50 "peanuts, milk, wheat flour" "/models/qwen.gguf" 0
                (world scenario_A))
  <> Return "TTFT_MS=6;ITPS=3000;OTPS=666;OET_MS=3|peanut, milk, wheat" /\
  fst (runModel engine 50 "peanuts, milk, wheat flour" "/models/qwen.gguf" 0
                (world scenario_beyond))
  = Return ("TTFT_MS=6;ITPS=3000;OTPS=666;OET_MS=3|peanut, milk, wheat"
            ++ nl ++ "Note") /\
  fst (runModel engine 50 "peanuts, milk, wheat flour" "/models/qwen.gguf" 0
                (world scenario_beyond))
  <> Return ("TTFT_MS=6;ITPS=3000;OTPS=666;OET_MS=3|peanut, milk, wheat" ++ nl).
Proof.
  split; [vm_compute; reflexivity|].
  split; [vm_compute; intros H; inversion H|].
  split; [vm_compute; reflexivity|].
  vm_compute; intros H; inversion H.
Qed.

(** C3 (amended): when, after [k] full body executions of a run, the
    sampled token is not end of generation and the first [n > 0] bytes of
    its buffer, appended to the accumulated output, make it hold a newline,
    generation stops in that body execution: the call returns the metrics
    header, the separator and the accumulated output followed by all [n]
    bytes of the fragment (the newline and what follows it in the fragment
    included); the token is not counted ([k] tokens enter the output
    throughput), and after the detokenization the engine sees only the
    clock reading and the three frees of the cleanup. *)
Theorem C3_newline_stops_generation :
  forall (St : Type) (E : Engine St) fuel prompt model_path template_type
         w l w1 k l0 w0,
    run_prefill E prompt model_path template_type w = (Normal l, w1) ->
    loop_state E k l w1 = Some (l0, w0) ->
    loop_guard l0 = true ->
    sampled_eog E (eng w0) = false ->
    0 < fst (sampled_piece E l0 (eng w0)) ->
    contains_char nl_char
      (output l0 ++ substring 0 (Z.to_nat (fst (sampled_piece E l0 (eng w0))))
                              (snd (sampled_piece E l0 (eng w0)))) = true ->
    (k < fuel)%nat ->
    exists w',
      runModel E fuel prompt model_path template_type w =
        (Return ("TTFT_MS=" ++ to_string
                                 (first_token_ms E prompt model_path template_type w) ++
                 ";ITPS=" ++ to_string
                               (answered_itps E prompt model_path template_type w) ++
                 ";OTPS=" ++ to_string
                               (answered_otps (Z.of_nat k)
                                  (decode_ms E prompt model_path template_type w
                                             (piece_state E l0 (eng w0)))) ++
                 ";OET_MS=" ++ to_string
                                 (decode_ms E prompt model_path template_type w
                                            (piece_state E l0 (eng w0))) ++
                 "|" ++ output l0 ++
                 substring 0 (Z.to_nat (fst (sampled_piece E l0 (eng w0))))
                           (snd (sampled_piece E l0 (eng w0)))), w') /\
      eng w' = after_cleanup E (piece_state E l0 (eng w0)).
Proof.
  intros St E fuel prompt model_path template_type w l w1 k l0 w0
         Hp Hk Hg Heog Hn Hnl Hfuel.
  rewrite <- (sampled_fragment_pos E _ _ Hn) in *.
  destruct (loop_body E l0 w0) as [o w'] eqn:Hb.
  destruct (loop_body_answers E _ _ _ _ Hb)
    as [(Habs & _) | (_ & c & l' & -> & _ & Httft & Hout &
                      [(-> & _ & _ & Heng & Hgen & _)
                      | ([Habs | Habs] & _)])];
    [congruence | | lia | congruence].
  destruct (run_breaks_after E fuel _ _ _ _ _ _ _ _ _ _ _ _ Hp Hk Hg Hb Hfuel)
    as (w'' & Hrun & Heng').
  exists w''. split; [|now rewrite Heng', Heng].
  rewrite Hrun, Httft, Hout, Hgen, Heng.
  rewrite (first_token_time E _ _ _ _ _ _ _ _ _ Hp Hk).
  destruct (loop_state_facts E _ _ _ _ _ Hk) as (Hcount & _).
  destruct (run_prefill_normal E _ _ _ _ _ _ Hp)
    as (_ & (_ & _ & _ & _ & Hzero & _) & _).
  rewrite Hcount, Hzero. reflexivity.
Qed.

Lemma C3_newline_stops_generation_witness :
  exists w',
    runModel engine 50 "peanuts, milk, wheat flour" "/models/qwen.gguf" 0
             (world scenario_beyond)
    = (Return ("TTFT_MS=6;ITPS=3000;OTPS=666;OET_MS=3|peanut, milk, wheat"
               ++ nl ++ "Note"), w').
Proof.
  edestruct (C3_newline_stops_generation Script engine 50%nat
               "peanuts, milk, wheat flour" "/models/qwen.gguf" 0
               (world scenario_beyond)) with (k := 2%nat)
    as (w' & Hrun & _).
  - vm_compute; reflexivity.
  - vm_compute; reflexivity.
  - vm_compute; reflexivity.
  - vm_compute; reflexivity.
  - vm_compute; reflexivity.
  - vm_compute; reflexivity.
  - vm_compute; lia.
  - exists w'. rewrite Hrun. vm_compute. reflexivity.
Defined.

(** C5: when, after [k] full body executions of a run, the sampled token is
    not end of generation, its fragment brings no newline, and the
    [llama_decode] of that token returns non-zero, the request does not
    fail: the call returns the metrics header, the separator and the output
    accumulated so far followed by the fragment of that token, which is
    not the empty string.  The header holds the time from the start of the
    call to the first sampling, the input throughput, the output
    throughput over the [k + 1] tokens counted and the decode time up to
    the failed forward pass; the two throughputs are non-negative
    quotients, not the sentinel, when their duration is positive. *)
Theorem C5_decode_failure_keeps_output :
  forall (St : Type) (E : Engine St) fuel prompt model_path template_type
         w l w1 k l0 w0,
    run_prefill E prompt model_path template_type w = (Normal l, w1) ->
    loop_state E k l w1 = Some (l0, w0) ->
    loop_guard l0 = true ->
    sampled_eog E (eng w0) = false ->
    contains_char nl_char (output l0 ++ sampled_fragment E l0 (eng w0)) = false ->
    fst (step_answer E l0 (eng w0)) <> 0 ->
    (k < fuel)%nat ->
    (exists w',
        runModel E fuel prompt model_path template_type w =
          (Return ("TTFT_MS=" ++ to_string
                                   (first_token_ms E prompt model_path template_type w) ++
                   ";ITPS=" ++ to_string
                                 (answered_itps E prompt model_path template_type w) ++
                   ";OTPS=" ++ to_string
                                 (answered_otps (Z.of_nat k + 1)
                                    (decode_ms E prompt model_path template_type w
                                               (snd (step_answer E l0 (eng w0))))) ++
                   ";OET_MS=" ++ to_string
                                   (decode_ms E prompt model_path template_type w
                                              (snd (step_answer E l0 (eng w0)))) ++
                   "|" ++ output l0 ++ sampled_fragment E l0 (eng w0)), w') /\
        fst (runModel E fuel prompt model_path template_type w)
        <> Return EmptyString) /\
    (0 < measured_prefill_ms E prompt model_path template_type w ->
     answered_itps E prompt model_path template_type w
     = Z.quot (fst (tokenizer_answer E prompt model_path template_type w) * 1000)
              (measured_prefill_ms E prompt model_path template_type w) /\
     0 <= answered_itps E prompt model_path template_type w) /\
    (0 < decode_ms E prompt model_path template_type w
                   (snd (step_answer E l0 (eng w0))) ->
     answered_otps (Z.of_nat k + 1)
       (decode_ms E prompt model_path template_type w
                  (snd (step_answer E l0 (eng w0))))
     = Z.quot ((Z.of_nat k + 1) * 1000)
              (decode_ms E prompt model_path template_type w
                         (snd (step_answer E l0 (eng w0)))) /\
     0 <= answered_otps (Z.of_nat k + 1)
            (decode_ms E prompt model_path template_type w
                       (snd (step_answer E l0 (eng w0))))).
Proof.
  intros St E fuel prompt model_path template_type w l w1 k l0 w0
         Hp Hk Hg Heog Hnl Hrc Hfuel.
  split; [|split].
  - destruct (loop_body E l0 w0) as [o w'] eqn:Hb.
    destruct (loop_body_answers E _ _ _ _ Hb)
      as [(Habs & _) | (_ & c & l' & -> & _ & Httft & Hout &
                        [(_ & _ & Habs & _)
                        | (_ & Hgen & Heng & [(-> & _) | (_ & Habs & _)])])];
      [congruence | congruence | | contradiction].
    destruct (run_breaks_after E fuel _ _ _ _ _ _ _ _ _ _ _ _ Hp Hk Hg Hb Hfuel)
      as (w'' & Hrun & _).
    assert (Hs : runModel E fuel prompt model_path template_type w =
                 (Return ("TTFT_MS=" ++ to_string
                            (first_token_ms E prompt model_path template_type w) ++
                          ";ITPS=" ++ to_string
                            (answered_itps E prompt model_path template_type w) ++
                          ";OTPS=" ++ to_string
                            (answered_otps (Z.of_nat k + 1)
                               (decode_ms E prompt model_path template_type w
                                          (snd (step_answer E l0 (eng w0))))) ++
                          ";OET_MS=" ++ to_string
                            (decode_ms E prompt model_path template_type w
                                       (snd (step_answer E l0 (eng w0)))) ++
                          "|" ++ output l0 ++ sampled_fragment E l0 (eng w0)), w'')).
    { rewrite Hrun, Httft, Hout, Hgen, Heng.
      rewrite (first_token_time E _ _ _ _ _ _ _ _ _ Hp Hk).
      destruct (loop_state_facts E _ _ _ _ _ Hk) as (Hcount & _).
      destruct (run_prefill_normal E _ _ _ _ _ _ Hp)
        as (_ & (_ & _ & _ & _ & Hzero & _) & _).
      rewrite Hcount, Hzero. reflexivity. }
    exists w''. split; [exact Hs|].
    rewrite Hs. cbn. discriminate.
  - intros Hpos. unfold answered_itps.
    destruct (measured_prefill_ms E prompt model_path template_type w >? 0) eqn:Hc;
      [|lia].
    split; [reflexivity|].
    destruct (run_prefill_normal E _ _ _ _ _ _ Hp) as ((_ & _ & Hcnt & _) & _).
    apply Z.quot_pos; lia.
  - intros Hpos. unfold answered_otps.
    destruct (decode_ms E prompt model_path template_type w
                        (snd (step_answer E l0 (eng w0))) >? 0) eqn:Hc; [|lia].
    split; [reflexivity|]. apply Z.quot_pos; lia.
Qed.

Lemma C5_decode_failure_keeps_output_witness :
  exists w',
    runModel engine 50 "egg noodles, soy sauce" "/models/qwen.gguf" 0
             (world decode_fails)
    = (Return "TTFT_MS=6;ITPS=3000;OTPS=1000;OET_MS=3|egg, soy", w').
Proof.
  edestruct (C5_decode_failure_keeps_output Script engine 50%nat
               "egg noodles, soy sauce" "/models/qwen.gguf" 0
               (world decode_fails)) with (k := 2%nat)
    as ((w' & Hrun & _) & _).
  - vm_compute; reflexivity.
  - vm_compute; reflexivity.
  - vm_compute; reflexivity.
  - vm_compute; reflexivity.
  - vm_compute; reflexivity.
  - vm_compute; discriminate.
  - vm_compute; lia.
  - exists w'. rewrite Hrun. vm_compute. reflexivity.
Defined.

Section Passing.

Context {St : Type} (E : Engine St).

Lemma passes_run_prefill prompt model_path template_type w :
  prefill_passes E prompt model_path template_type w ->
  exists l w1, run_prefill E prompt model_path template_type w = (Normal l, w1).
Proof.
  intros (H1 & H2 & H3 & H4).
  destruct (run_prefill E prompt model_path template_type w) as [o w1] eqn:Hp.
  destruct (run_prefill_answers E _ _ _ _ _ _ Hp)
    as [(A & _) | [(_ & A & _) | [(_ & _ & A & _) | [(_ & _ & _ & A & _)
        | (_ & l & -> & _)]]]];
    try congruence; try lia.
  eauto.
Qed.

Lemma fails_run_prefill prompt model_path template_type w :
  ~ prefill_passes E prompt model_path template_type w ->
  exists w1,
    run_prefill E prompt model_path template_type w = (Return EmptyString, w1).
Proof.
  intros Hno.
  destruct (run_prefill E prompt model_path template_type w) as [o w1] eqn:Hp.
  destruct (run_prefill_answers E _ _ _ _ _ _ Hp)
    as [(_ & ->) | [(_ & _ & ->) | [(_ & _ & _ & ->) | [(_ & _ & _ & _ & ->)
        | (Hpass & _)]]]];
    eauto; contradiction.
Qed.

Lemma loop_entry_guard l : loop_entry l -> loop_guard l = true.
Proof.
  intros (Hpos & Htok & Hn & _). unfold loop_guard, n_predict, max_tokens.
  apply Z.ltb_lt. lia.
Qed.

End Passing.

(** C4 (counterexample): a model whose first sampled token is end of
    generation gives the metrics header, the separator and an empty raw
    output, which is not the empty string that a model-load failure
    gives. *)
Lemma C4_empty_answer_differs_from_failure :
  fst (runModel engine 50 "milk, eggs" "/models/qwen.gguf" 0 (world empty_answer))
  = Return "TTFT_MS=-1;ITPS=3000;OTPS=0;OET_MS=1|" /\
  fst (runModel engine 50 "milk, eggs" "/models/qwen.gguf" 0 (world no_model))
  = Return EmptyString /\
  fst (runModel engine 50 "milk, eggs" "/models/qwen.gguf" 0 (world empty_answer))
  <> fst (runModel engine 50 "milk, eggs" "/models/qwen.gguf" 0 (world no_model)).
Proof.
  split; [vm_compute; reflexivity|].
  split; [vm_compute; reflexivity|].
  vm_compute. discriminate.
Qed.

(** C4 (amended): the call returns the empty string when the model does
    not load, when the context is not created, when the tokenizer returns a
    count that is not positive, and when the prefill [llama_decode] returns
    non-zero, whatever the cause; when the four checks pass, every string
    the call returns is the metrics header, the separator and the raw
    output, never the empty string; in particular when the first sampled
    token is end of generation it is the header with the sentinel -1 as
    time to first token, followed by the separator and nothing.  So the
    result is empty exactly when a fatal error occurred. *)
Theorem C4_empty_result_iff_fatal_error :
  forall (St : Type) (E : Engine St) fuel prompt model_path template_type w,
    (fst (load_answer E model_path w) = false ->
     exists w', runModel E fuel prompt model_path template_type w
                = (Return EmptyString, w')) /\
    (fst (load_answer E model_path w) = true ->
     fst (context_answer E model_path w) = false ->
     exists w', runModel E fuel prompt model_path template_type w
                = (Return EmptyString, w')) /\
    (fst (load_answer E model_path w) = true ->
     fst (context_answer E model_path w) = true ->
     fst (tokenizer_answer E prompt model_path template_type w) <= 0 ->
     exists w', runModel E fuel prompt model_path template_type w
                = (Return EmptyString, w')) /\
    (fst (load_answer E model_path w) = true ->
     fst (context_answer E model_path w) = true ->
     0 < fst (tokenizer_answer E prompt model_path template_type w) ->
     fst (prefill_answer E prompt model_path template_type w) <> 0 ->
     exists w', runModel E fuel prompt model_path template_type w
                = (Return EmptyString, w')) /\
    (prefill_passes E prompt model_path template_type w ->
     forall s w',
       runModel E fuel prompt model_path template_type w = (Return s, w') ->
       s <> EmptyString /\
       exists ttft_ms otps oet_ms output,
         s = "TTFT_MS=" ++ to_string ttft_ms ++
             ";ITPS=" ++ to_string
                           (answered_itps E prompt model_path template_type w) ++
             ";OTPS=" ++ to_string otps ++
             ";OET_MS=" ++ to_string oet_ms ++ "|" ++ output) /\
    (prefill_passes E prompt model_path template_type w ->
     sampled_eog E (entry_state E prompt model_path template_type w) = true ->
     (0 < fuel)%nat ->
     exists w',
       runModel E fuel prompt model_path template_type w =
         (Return ("TTFT_MS=" ++ to_string (-1) ++
                  ";ITPS=" ++ to_string
                                (answered_itps E prompt model_path template_type w) ++
                  ";OTPS=" ++ to_string
                                (answered_otps 0
                                   (decode_ms E prompt model_path template_type w
                                      (after_sample E
                                         (entry_state E prompt model_path
                                                      template_type w)))) ++
                  ";OET_MS=" ++ to_string
                                  (decode_ms E prompt model_path template_type w
                                     (after_sample E
                                        (entry_state E prompt model_path
                                                     template_type w))) ++
                  "|"), w')).
Proof.
  intros St E fuel prompt model_path template_type w.
  assert (Hfail : ~ prefill_passes E prompt model_path template_type w ->
                  exists w', runModel E fuel prompt model_path template_type w
                             = (Return EmptyString, w')).
  { intros Hno. destruct (fails_run_prefill E _ _ _ _ Hno) as (w1 & Hp).
    exists w1. unfold runModel, bind. now rewrite Hp. }
  split; [|split; [|split; [|split; [|split]]]].
  - intros H. apply Hfail. intros (A & _). congruence.
  - intros _ H. apply Hfail. intros (_ & A & _). congruence.
  - intros _ _ H. apply Hfail. intros (_ & _ & A & _). lia.
  - intros _ _ _ H. apply Hfail. intros (_ & _ & _ & A). contradiction.
  - intros Hpass s w' Hrun.
    destruct (passes_run_prefill E _ _ _ _ Hpass) as (l & w1 & Hp).
    destruct (run_prefill_normal E _ _ _ _ _ _ Hp)
      as (_ & _ & _ & _ & _ & Hitps & _).
    unfold runModel, bind in Hrun. rewrite Hp in Hrun.
    destruct (while_loop E fuel l w1) as [o2 w2] eqn:Hw.
    destruct (while_loop_outcome E _ _ _ _ _ Hw) as [-> | (why & l' & ->)];
      [discriminate|].
    cbn [snd] in Hrun.
    destruct (run_finish_answers E l' w2) as (w'' & Hf & _).
    rewrite Hf in Hrun. inversion Hrun; subst s w''.
    split; [cbn; discriminate|].
    assert (Hi : itps l' = itps l).
    { destruct (while_loop_inv E (fun x => itps x = itps l)) with
        (fuel := fuel) (l := l) (w := w1) (why := why) (l' := l') (w' := w2)
        as (_ & [(_ & _ & Hi) | (l0 & w0 & Hi & _ & _ & (_ & _ & Hi' & _) & _)]);
        [ | reflexivity | exact Hw | congruence | congruence ].
      intros x wx x' wx' Hx _ _ ((_ & _ & Hi & _) & _). congruence. }
    rewrite Hi, Hitps. do 4 eexists. reflexivity.
  - intros Hpass Heog Hfuel.
    destruct (passes_run_prefill E _ _ _ _ Hpass) as (l & w1 & Hp).
    destruct (run_prefill_normal E _ _ _ _ _ _ Hp)
      as (_ & Hentry & _ & _ & _ & _ & _ & Heng).
    rewrite <- Heng in *.
    assert (Hk : loop_state E 0 l w1 = Some (l, w1)) by reflexivity.
    destruct (loop_body E l w1) as [o w'] eqn:Hb.
    destruct (loop_body_answers E _ _ _ _ Hb)
      as [(_ & -> & Heng') | (Habs & _)]; [|congruence].
    destruct (run_breaks_after E fuel _ _ _ _ _ _ _ _ _ _ _ _ Hp Hk
                (loop_entry_guard l Hentry) Hb Hfuel)
      as (w'' & Hrun & _).
    exists w''. rewrite Hrun, Heng'.
    destruct Hentry as (_ & _ & _ & Hout & Hgen & _ & Httft & _).
    rewrite Hout, Hgen, Httft. reflexivity.
Qed.

Lemma C4_empty_result_iff_fatal_error_witness :
  (exists w', runModel engine 50 "milk, eggs" "/models/qwen.gguf" 0 (world no_model)
              = (Return EmptyString, w')) /\
  (exists w', runModel engine 50 "milk, eggs" "/models/qwen.gguf" 0 (world no_context)
              = (Return EmptyString, w')) /\
  (exists w', runModel engine 50 "milk, eggs" "/models/qwen.gguf" 0 (world no_tokens)
              = (Return EmptyString, w')) /\
  (exists w', runModel engine 50 "milk, eggs" "/models/qwen.gguf" 0
                       (world prefill_fails)
              = (Return EmptyString, w')) /\
  (exists w', runModel engine 50 "milk, eggs" "/models/qwen.gguf" 0
                       (world empty_answer)
              = (Return "TTFT_MS=-1;ITPS=3000;OTPS=0;OET_MS=1|", w')).
Proof.
  split; [|split; [|split; [|split]]].
  - eapply (proj1 (C4_empty_result_iff_fatal_error Script engine 50%nat
              "milk, eggs" "/models/qwen.gguf" 0 (world no_model))).
    reflexivity.
  - eapply (proj1 (proj2 (C4_empty_result_iff_fatal_error Script engine 50%nat
              "milk, eggs" "/models/qwen.gguf" 0 (world no_context))));
      reflexivity.
  - eapply (proj1 (proj2 (proj2 (C4_empty_result_iff_fatal_error Script engine
              50%nat "milk, eggs" "/models/qwen.gguf" 0 (world no_tokens)))));
      vm_compute; try reflexivity; discriminate.
  - eapply (proj1 (proj2 (proj2 (proj2 (C4_empty_result_iff_fatal_error Script
              engine 50%nat "milk, eggs" "/models/qwen.gguf" 0
              (world prefill_fails))))));
      vm_compute; try reflexivity; discriminate.
  - edestruct (proj2 (proj2 (proj2 (proj2 (proj2
                 (C4_empty_result_iff_fatal_error Script engine 50%nat
                    "milk, eggs" "/models/qwen.gguf" 0 (world empty_answer)))))))
      as (w' & Hrun).
    + vm_compute. repeat split; reflexivity.
    + vm_compute; reflexivity.
    + lia.
    + exists w'. rewrite Hrun. vm_compute. reflexivity.
Defined.

Lemma while_loop_frame {St : Type} (E : Engine St) fuel l w why l' w' :
  while_loop E fuel l w = (Normal (why, l'), w') -> frame l l'.
Proof.
  intros Hw.
  assert (Hstep : forall x wx x' wx',
             frame l x -> loop_guard x = true ->
             loop_body E x wx = (Normal (Continue, x'), wx') ->
             body_post x Continue x' -> frame l x').
  { intros x wx x' wx' Hx _ _ (Hfr & _). unfold frame in *.
    intuition congruence. }
  assert (H0 : frame l l) by (unfold frame; auto).
  destruct (while_loop_inv E (frame l) Hstep fuel l w why l' w' H0 Hw)
    as (_ & [(_ & _ & H) | (l0 & w0 & H & _ & _ & (Hfr & _))]);
    [exact H|].
  unfold frame in *. intuition congruence.
Qed.

(** C8: in a run that reaches the result assembly, if no token was
    generated (the accumulated output is empty and no token was counted)
    then the reported time to first token is the sentinel -1, the first
    sampled token having been end of generation.  Conversely the time is
    set only when the first sampled token is not end of generation, and
    once: it is then the time from the start of the call to the clock
    reading that follows that first sampling, whatever the loop does
    afterwards. *)
Theorem C8_ttft_sentinel :
  forall (St : Type) (E : Engine St) fuel prompt model_path template_type
         w l w1 why l' w2,
    run_prefill E prompt model_path template_type w = (Normal l, w1) ->
    while_loop E fuel l w1 = (Normal (why, l'), w2) ->
    (output l' = EmptyString -> generated_tokens l' = 0 ->
     ttft_ms l' = -1 /\
     sampled_eog E (entry_state E prompt model_path template_type w) = true) /\
    (sampled_eog E (entry_state E prompt model_path template_type w) = true ->
     ttft_ms l' = -1 /\ first_token_seen l' = false /\
     output l' = EmptyString /\ generated_tokens l' = 0) /\
    (sampled_eog E (entry_state E prompt model_path template_type w) = false ->
     first_token_seen l' = true /\
     ttft_ms l' = first_token_ms E prompt model_path template_type w) /\
    (exists w',
        runModel E fuel prompt model_path template_type w =
          (Return ("TTFT_MS=" ++ to_string (ttft_ms l') ++
                   ";ITPS=" ++ to_string
                                 (answered_itps E prompt model_path template_type w) ++
                   ";OTPS=" ++ to_string (otps_at E l' w2) ++
                   ";OET_MS=" ++ to_string (gen_ms_at E l' w2) ++
                   "|" ++ output l'), w')).
Proof.
  intros St E fuel prompt model_path template_type w l w1 why l' w2 Hp Hw.
  destruct (run_prefill_normal E _ _ _ _ _ _ Hp)
    as (_ & Hentry & Hts & _ & _ & Hitps & _ & Heng).
  pose proof (loop_entry_guard l Hentry) as Hg.
  pose proof (while_loop_frame E _ _ _ _ _ _ Hw) as (_ & _ & Hi & _).
  destruct Hentry as (_ & _ & _ & Hout & Hgen & Hseen & Httft & _).
  assert (Hres : exists w',
             runModel E fuel prompt model_path template_type w =
               (Return ("TTFT_MS=" ++ to_string (ttft_ms l') ++
                        ";ITPS=" ++ to_string
                          (answered_itps E prompt model_path template_type w) ++
                        ";OTPS=" ++ to_string (otps_at E l' w2) ++
                        ";OET_MS=" ++ to_string (gen_ms_at E l' w2) ++
                        "|" ++ output l'), w')).
  { destruct (run_finish_returns E l' w2) as (otps & w' & Hf & Hotps & _).
    exists w'. unfold runModel, bind. rewrite Hp, Hw. cbn [snd].
    rewrite Hf, Hotps, Hi, Hitps. reflexivity. }
  rewrite <- Heng. unfold first_token_ms. rewrite <- Heng, <- Hts.
  destruct fuel as [|fuel]; cbn [while_loop] in Hw; rewrite Hg in Hw;
    [discriminate|].
  unfold bind in Hw.
  destruct (loop_body E l w1) as [o wb] eqn:Hb.
  destruct (loop_body_answers E _ _ _ _ Hb)
    as [(Heog & -> & _)
       | (Heog & c & l1 & -> & Hs1 & Ht1 & Ho1 & Hcase)].
  - (* the first sampled token is end of generation *)
    inversion Hw; subst why l' w2.
    rewrite Heog. repeat split; auto; discriminate.
  - (* a first token is sampled *)
    rewrite Hseen in Ht1.
    assert (Hfacts : first_token_seen l' = true /\
                     ttft_ms l' = duration_ms (t_start l)
                                    (first_token_clock E (eng w1)) /\
                     (1 <= generated_tokens l' \/ output l' <> EmptyString)).
    { destruct c as [|why0].
      - (* the body ran to its end *)
        destruct Hcase as [(Habs & _) | (_ & Hg1 & _)]; [discriminate|].
        set (P := fun x => first_token_seen x = true /\
                           ttft_ms x = duration_ms (t_start l)
                                         (first_token_clock E (eng w1)) /\
                           1 <= generated_tokens x).
        assert (Hstep : forall x wx x' wx',
                   P x -> loop_guard x = true ->
                   loop_body E x wx = (Normal (Continue, x'), wx') ->
                   body_post x Continue x' -> P x').
        { intros x wx x' wx' (A & B & C) _ _ (_ & Hk & _ & _ & _ & D & _).
          destruct (Hk A) as (A' & B'). unfold P. intuition (try congruence; lia). }
        assert (HP : P l1) by (unfold P; intuition lia).
        destruct (while_loop_inv E P Hstep fuel l1 wb why l' w2 HP Hw)
          as (_ & [(_ & _ & (A & B & C)) | (l0 & w0 & (A & B & C) & _ & _ & Hpost)]).
        + auto.
        + destruct Hpost as (_ & Hk & _ & Hc). destruct (Hk A) as (A' & B').
          split; [assumption|]. split; [congruence|]. left.
          destruct why; [subst l'; assumption | | | contradiction];
            intuition lia.
      - (* the body broke *)
        inversion Hw; subst why0 l1 w2.
        split; [assumption|]. split; [assumption|].
        destruct Hcase as [(_ & _ & Hnl & _) | (_ & Hg1 & _)].
        + right. intros Hempty. rewrite <- Ho1, Hempty in Hnl. discriminate.
        + left. lia. }
    destruct Hfacts as (A & B & C).
    rewrite Heog. split; [|split; [|split]].
    + intros Ho Hz. destruct C as [C | C]; [lia | contradiction].
    + discriminate.
    + intros _. auto.
    + exact Hres.
Qed.

Lemma C8_ttft_sentinel_witness :
  exists l w1 l' w2,
    run_prefill engine "milk, eggs" "/models/qwen.gguf" 0 (world empty_answer)
      = (Normal l, w1) /\
    while_loop engine 50 l w1 = (Normal (STOP_EOG, l'), w2) /\
    output l' = EmptyString /\ generated_tokens l' = 0 /\
    ttft_ms l' = -1 /\
    fst (runModel engine 50 "milk, eggs" "/models/qwen.gguf" 0 (world empty_answer))
    = Return "TTFT_MS=-1;ITPS=3000;OTPS=0;OET_MS=1|".
Proof.
  eexists; eexists; eexists; eexists.
  split; [vm_compute; reflexivity|].
  split; [vm_compute; reflexivity|].
  split; [reflexivity|]. split; [reflexivity|].
  split; [|vm_compute; reflexivity].
  eapply (proj1 (C8_ttft_sentinel Script engine 50%nat
            "milk, eggs" "/models/qwen.gguf" 0 (world empty_answer) _ _ _ _ _ _ _)).
  - reflexivity.
  - reflexivity.
  Unshelve.
  all: try (vm_compute; reflexivity).
Defined.

(** C9: no call divides by zero; and in every call that returns a
    non-empty string the four checks of the prefill stage have passed and
    the ITPS field of the result is the sentinel -1 when the duration
    measured around the prefill forward pass is 0 ms, and the integer
    quotient of 1000 times the tokenizer's count by that duration when it
    is positive. *)
Theorem C9_itps_division_guard :
  forall (St : Type) (E : Engine St) fuel prompt model_path template_type w,
    fst (runModel E fuel prompt model_path template_type w) <> Fault /\
    (forall s w',
        runModel E fuel prompt model_path template_type w = (Return s, w') ->
        s <> EmptyString ->
        prefill_passes E prompt model_path template_type w /\
        exists ttft_ms otps oet_ms output,
          (measured_prefill_ms E prompt model_path template_type w = 0 ->
           s = "TTFT_MS=" ++ to_string ttft_ms ++
               ";ITPS=" ++ to_string (-1) ++
               ";OTPS=" ++ to_string otps ++
               ";OET_MS=" ++ to_string oet_ms ++ "|" ++ output) /\
          (0 < measured_prefill_ms E prompt model_path template_type w ->
           s = "TTFT_MS=" ++ to_string ttft_ms ++
               ";ITPS=" ++ to_string
                             (fst (tokenizer_answer E prompt model_path
                                                    template_type w) * 1000
                              / measured_prefill_ms E prompt model_path
                                                    template_type w) ++
               ";OTPS=" ++ to_string otps ++
               ";OET_MS=" ++ to_string oet_ms ++ "|" ++ output)).
Proof.
  intros St E fuel prompt model_path template_type w. split.
  - destruct (runModel E fuel prompt model_path template_type w) as [o w'] eqn:Hrun.
    destruct (runModel_cases E _ _ _ _ _ _ _ Hrun)
      as [(-> & _) | [(-> & _) | (l & w1 & why & l' & w2 & _ & _ & Hf)]];
      try discriminate.
    destruct (run_finish_returns E l' w2) as (otps & w'' & Hf' & _).
    rewrite Hf in Hf'. inversion Hf'. discriminate.
  - intros s w' Hrun Hne.
    destruct (runModel_cases E _ _ _ _ _ _ _ Hrun)
      as [(Hs & _) | [(Habs & _) | (l & w1 & why & l' & w2 & Hp & Hw & Hf)]].
    + inversion Hs; subst s. now elim Hne.
    + discriminate.
    + destruct (run_prefill_normal E _ _ _ _ _ _ Hp)
        as (Hpass & _ & _ & _ & _ & Hitps & _).
      split; [exact Hpass|].
      pose proof (while_loop_frame E _ _ _ _ _ _ Hw) as (_ & _ & Hi & _).
      destruct (run_finish_answers E l' w2) as (w'' & Hf' & _).
      rewrite Hf in Hf'. inversion Hf' as [[Hs Hw']].
      rewrite Hi, Hitps. unfold answered_itps.
      do 4 eexists. split.
      * intros Hz. rewrite Hz. reflexivity.
      * intros Hpos.
        destruct (measured_prefill_ms E prompt model_path template_type w >? 0)
          eqn:Hc; [|lia].
        destruct Hpass as (_ & _ & Hcnt & _).
        rewrite Z.quot_div_nonneg by lia. reflexivity.
Qed.

Lemma C9_itps_division_guard_witness :
  (exists w',
      runModel engine 50 "peanuts, milk, wheat flour" "/models/qwen.gguf" 0
               (world instant_clock)
      = (Return ("TTFT_MS=0;ITPS=-1;OTPS=-1;OET_MS=0|peanut, milk, wheat" ++ nl),
         w')) /\
  measured_prefill_ms engine "peanuts, milk, wheat flour" "/models/qwen.gguf" 0
                      (world instant_clock) = 0 /\
  (exists w',
      runModel engine 50 "peanuts, milk, wheat flour" "/models/qwen.gguf" 0
               (world scenario_A)
      = (Return ("TTFT_MS=6;ITPS=3000;OTPS=666;OET_MS=3|peanut, milk, wheat" ++ nl),
         w')) /\
  measured_prefill_ms engine "peanuts, milk, wheat flour" "/models/qwen.gguf" 0
                      (world scenario_A) = 1 /\
  fst (tokenizer_answer engine "peanuts, milk, wheat flour" "/models/qwen.gguf" 0
                        (world scenario_A)) = 3 /\
  (exists ttft_ms otps oet_ms output,
      "TTFT_MS=0;ITPS=-1;OTPS=-1;OET_MS=0|peanut, milk, wheat" ++ nl
      = "TTFT_MS=" ++ to_string ttft_ms ++ ";ITPS=" ++ to_string (-1) ++
        ";OTPS=" ++ to_string otps ++ ";OET_MS=" ++ to_string oet_ms ++
        "|" ++ output) /\
  (exists ttft_ms otps oet_ms output,
      "TTFT_MS=6;ITPS=3000;OTPS=666;OET_MS=3|peanut, milk, wheat" ++ nl
      = "TTFT_MS=" ++ to_string ttft_ms ++ ";ITPS=" ++ to_string (3 * 1000 / 1) ++
        ";OTPS=" ++ to_string otps ++ ";OET_MS=" ++ to_string oet_ms ++
        "|" ++ output).
Proof.
  split; [eexists; vm_compute; reflexivity|].
  split; [reflexivity|].
  split; [eexists; vm_compute; reflexivity|].
  split; [reflexivity|]. split; [reflexivity|].
  split.
  - edestruct (proj2 (C9_itps_division_guard Script engine 50%nat
                 "peanuts, milk, wheat flour" "/models/qwen.gguf" 0
                 (world instant_clock)))
      as (_ & a & b & c & d & Hzero & _).
    + vm_compute; reflexivity.
    + discriminate.
    + exists a, b, c, d. apply Hzero. reflexivity.
  - edestruct (proj2 (C9_itps_division_guard Script engine 50%nat
                 "peanuts, milk, wheat flour" "/models/qwen.gguf" 0
                 (world scenario_A)))
      as (_ & a & b & c & d & _ & Hpos).
    + vm_compute; reflexivity.
    + discriminate.
    + exists a, b, c, d. apply Hpos. reflexivity.
Defined.
